(** * lobo_wireless: the wireless connection manager

    A shallow embedding of [lobo_wireless.py] (class [Wireless] and the
    function [status_message]) together with the properties of its
    configuration setters, its scan, its connect state machine and its
    status table.

    The MicroPython modules [network] and [time] are external to the
    program.  The radio object [network.WLAN] and [time.sleep] are taken
    as an interface ([Platform]); the namespace of the module [network],
    which [status_message] introspects with [dir] and [getattr], is taken
    as a list of named integer constants. *)

From Stdlib Require Import ZArith String Ascii DecimalString.
From stdpp Require Import gmap strings list.

Local Open Scope string_scope.
Local Open Scope list_scope.
Local Open Scope Z_scope.

(** ** Python values and exceptions *)

(** The dynamically typed values that reach the setters and that an
    [OSError] carries in its [args]. *)
Inductive PyVal : Type :=
  | VNone
  | VBool (b : bool)
  | VInt (z : Z)
  | VStr (s : string).

(** [str(int)] as used by ["{}".format]: decimal, with a minus sign. *)
Definition format_int (z : Z) : string := NilZero.string_of_int (Z.to_int z).

(** ["{}".format(v)]. *)
Definition format_val (v : PyVal) : string :=
  match v with
  | VNone => "None"
  | VBool true => "True"
  | VBool false => "False"
  | VInt z => format_int z
  | VStr s => s
  end.

(** The exceptions the module deals with: a failed [assert], the
    [OSError] of the radio driver with its [args], the [IndexError] of
    [e.args[0]] on empty [args], and any other exception, known by its
    class name. *)
Inductive exn : Type :=
  | AssertionError (msg : string)
  | OSError (args : list PyVal)
  | IndexError
  | OtherException (name : string).

(** A call either returns a value or raises. *)
Inductive outcome (A : Type) : Type :=
  | Returned (a : A)
  | Raised (e : exn).
Arguments Returned {A} a.
Arguments Raised {A} e.

(** ** Strings *)

(** [sub in s] for strings. *)
Fixpoint contains (sub s : string) : bool :=
  String.prefix sub s ||
  match s with
  | EmptyString => false
  | String _ s' => contains sub s'
  end.

(** A Python [str] is held as its UTF-8 encoding, which is how a string
    literal is read here: a character is one to four bytes, as many as
    its first byte says. *)
Definition char_width (c : ascii) : nat :=
  let n := nat_of_ascii c in
  if (n <? 192)%nat then 1%nat
  else if (n <? 224)%nat then 2%nat
  else if (n <? 240)%nat then 3%nat
  else 4%nat.

(** What is left after [n] bytes. *)
Fixpoint bytes_drop (n : nat) (s : string) : string :=
  match n, s with
  | O, _ => s
  | S n', EmptyString => EmptyString
  | S n', String _ s' => bytes_drop n' s'
  end.

(** [s[n:]]: what is left after [n] characters. *)
Fixpoint string_drop (n : nat) (s : string) : string :=
  match n, s with
  | O, _ => s
  | S n', EmptyString => EmptyString
  | S n', String c s' => string_drop n' (bytes_drop (char_width c - 1) s')
  end.

(** ** The status table *)

Module StatusTable.

(** The namespace of the module [network]: its attribute names in the
    order of [dir(network)], each with the value [getattr] gives. *)
Definition namespace : Type := list (string * Z).

(** [_stats = [s for s in dir(network) if "STAT_" in s]] *)
Definition stats (ns : namespace) : namespace :=
  List.filter (fun '(s, _) => contains "STAT_" s) ns.

(** [for s in _stats: _out[getattr(network, s)] = s[5:]] *)
Definition build (ns : namespace) : gmap Z string :=
  foldl (fun out '(s, v) => <[ v := string_drop 5 s ]> out) ∅ (stats ns).

(** [_out.get(status, "ERROR {}?".format(status))] *)
Definition status_message (ns : namespace) (status : Z) : string :=
  default ("ERROR " +:+ format_int status +:+ "?") (build ns !! status).

(** A code is known when some status constant has it as its value. *)
Definition known (ns : namespace) (code : Z) : Prop :=
  ∃ s, In (s, code) ns ∧ contains "STAT_" s = true.

End StatusTable.
Import StatusTable.

(** ** The platform: [network.WLAN] and [time.sleep] *)

(** One scan result: (ssid, bssid, channel, RSSI, security, hidden). *)
Definition AP : Type :=
  (list Byte.byte * list Byte.byte * Z * Z * Z * bool)%type.

(** What [ifconfig()] returns: (ip, subnet, gateway, dns). *)
Definition ifconfig_t : Type := (string * string * string * string)%type.

(** The calls the module makes on the radio object [self._wlan] and on
    the module [time], over a state [D] of the outside world.  Queries
    return the new state too: a radio associates while it is polled.  A
    connect request and a scan can raise. *)
Class Platform (D : Type) : Type := {
  wlan_active : D → bool * D;                       (* active() *)
  wlan_set_active : bool → D → D;                   (* active(b) *)
  wlan_isconnected : D → bool * D;                  (* isconnected() *)
  wlan_ifconfig : D → ifconfig_t * D;               (* ifconfig() *)
  wlan_connect : string → string → D → option exn * D; (* connect(ssid, key) *)
  wlan_status : D → Z * D;                          (* status() *)
  wlan_scan : D → outcome (list AP) * D;            (* scan() *)
  wlan_disconnect : D → D;                          (* disconnect() *)
  time_sleep : Z → D → D                            (* time.sleep(secs) *)
}.

(** What the module does to the outside world, in order, with what it
    was answered. *)
Inductive Event : Type :=
  | EvActive (r : bool)
  | EvSetActive (b : bool)
  | EvIsConnected (r : bool)
  | EvIfconfig (r : ifconfig_t)
  | EvConnect (ssid password : string) (r : option exn)
  | EvStatus (code : Z)
  | EvScan (r : outcome (list AP))
  | EvDisconnect
  | EvSleep (secs : Z)
  | EvPrint (line : string).

Record World (D : Type) : Type := mkWorld {
  radio : D;
  trace : list Event
}.
Arguments mkWorld {D} radio trace.
Arguments radio {D} w.
Arguments trace {D} w.

(** A world in which nothing has been done yet. *)
Definition start {D : Type} (d : D) : World D := mkWorld d [].

(** Computations over the world. *)
Definition M (D A : Type) : Type := World D → A * World D.

#[export] Instance M_ret {D} : MRet (M D) := λ A a w, (a, w).
#[export] Instance M_bind {D} : MBind (M D) :=
  λ A B f m w, let '(a, w') := m w in f a w'.

Section Calls.
Context {D : Type} `{Platform D}.

Definition emit (d : D) (e : Event) : M D unit :=
  λ w, (tt, mkWorld d (trace w ++ [e])).

Definition active : M D bool :=
  λ w, let '(r, d) := wlan_active (radio w) in
       (r, mkWorld d (trace w ++ [EvActive r])).

Definition set_active (b : bool) : M D unit :=
  λ w, emit (wlan_set_active b (radio w)) (EvSetActive b) w.

Definition isconnected : M D bool :=
  λ w, let '(r, d) := wlan_isconnected (radio w) in
       (r, mkWorld d (trace w ++ [EvIsConnected r])).

Definition ifconfig : M D ifconfig_t :=
  λ w, let '(r, d) := wlan_ifconfig (radio w) in
       (r, mkWorld d (trace w ++ [EvIfconfig r])).

Definition wlan_connect_call (ssid password : string) : M D (option exn) :=
  λ w, let '(r, d) := wlan_connect ssid password (radio w) in
       (r, mkWorld d (trace w ++ [EvConnect ssid password r])).

Definition status_call : M D Z :=
  λ w, let '(r, d) := wlan_status (radio w) in
       (r, mkWorld d (trace w ++ [EvStatus r])).

Definition scan : M D (outcome (list AP)) :=
  λ w, let '(r, d) := wlan_scan (radio w) in
       (r, mkWorld d (trace w ++ [EvScan r])).

Definition wlan_disconnect_call : M D unit :=
  λ w, emit (wlan_disconnect (radio w)) EvDisconnect w.

Definition sleep (secs : Z) : M D unit :=
  λ w, emit (time_sleep secs (radio w)) (EvSleep secs) w.

Definition print (line : string) : M D unit :=
  λ w, emit (radio w) (EvPrint line) w.

End Calls.

(** ** The class [Wireless] *)

(** The fields of an instance, apart from the radio object [_wlan],
    which is the [radio] of the world. *)
Record Wireless : Type := mkWireless {
  _ssid : string;
  _password : string;
  _attempts : Z;
  _wait_loops : Z
}.

(** In the UTF-8 encoding of a [str] the bytes 0x80..0xBF continue a
    character; every other byte starts one. *)
Definition is_continuation (c : ascii) : bool :=
  let n := nat_of_ascii c in (128 <=? n)%nat && (n <=? 191)%nat.

(** [len(s)]: the number of characters of [s], not of its bytes. *)
Fixpoint characters (s : string) : nat :=
  match s with
  | EmptyString => O
  | String c s' =>
      if is_continuation c then characters s' else S (characters s')
  end.

Definition len (s : string) : Z := Z.of_nat (characters s).

(** [type(v) is str and 2 <= len(v) <= 32] *)
Definition ssid_ok (v : PyVal) : bool :=
  match v with
  | VStr s => (2 <=? len s) && (len s <=? 32)
  | _ => false
  end.

(** [type(v) is str] *)
Definition password_ok (v : PyVal) : bool :=
  match v with
  | VStr _ => true
  | _ => false
  end.

(** [type(v) is int and 1 <= v <= 9]; a [bool] is not of type [int]. *)
Definition count_ok (v : PyVal) : bool :=
  match v with
  | VInt n => (1 <=? n) && (n <=? 9)
  | _ => false
  end.

(** The string, the integer a checked value holds. *)
Definition str_of (v : PyVal) : string :=
  match v with VStr s => s | _ => "" end.
Definition int_of (v : PyVal) : Z :=
  match v with VInt n => n | _ => 0 end.

Module Setters.

(** [@ssid.setter] *)
Definition ssid (v : PyVal) (self : Wireless) : outcome unit * Wireless :=
  if ssid_ok v
  then (Returned tt,
        mkWireless (str_of v) (_password self) (_attempts self) (_wait_loops self))
  else (Raised (AssertionError "ssid must be 2 <= str <=32"), self).

(** [@password.setter] *)
Definition password (v : PyVal) (self : Wireless) : outcome unit * Wireless :=
  if password_ok v
  then (Returned tt,
        mkWireless (_ssid self) (str_of v) (_attempts self) (_wait_loops self))
  else (Raised (AssertionError "password must be string"), self).

(** [@attempts.setter] *)
Definition attempts (v : PyVal) (self : Wireless) : outcome unit * Wireless :=
  if count_ok v
  then (Returned tt,
        mkWireless (_ssid self) (_password self) (int_of v) (_wait_loops self))
  else (Raised (AssertionError "attempts must be 1 <= int <= 9"), self).

(** [@wait_loops.setter] *)
Definition wait_loops (v : PyVal) (self : Wireless) : outcome unit * Wireless :=
  if count_ok v
  then (Returned tt,
        mkWireless (_ssid self) (_password self) (_attempts self) (int_of v))
  else (Raised (AssertionError "wait_loops must be 1 <= int <= 9"), self).

End Setters.

Module Getters.

Definition ssid (self : Wireless) : PyVal := VStr (_ssid self).

(** [return None] *)
Definition password (self : Wireless) : PyVal := VNone.

Definition attempts (self : Wireless) : PyVal := VInt (_attempts self).

Definition wait_loops (self : Wireless) : PyVal := VInt (_wait_loops self).

End Getters.


(** [range(start, stop, -1)] *)
Definition range_down (start stop : Z) : list Z :=
  List.map (λ i, start - Z.of_nat i) (seq 0 (Z.to_nat (start - stop))).

(** [ifconfig()[0]] *)
Definition ip_of (c : ifconfig_t) : string := let '(ip, _, _, _) := c in ip.

(** How a loop of [connect] ends: it falls through to the statement
    after it with the log so far, or [connect] has returned or raised
    from inside it. *)
Inductive flow : Type :=
  | Fallthrough (_output : list string)
  | Exit (r : outcome (list string)).

Section Methods.
Context {D : Type} `{Platform D}.

(** The module's global [DEBUG] and the namespace of [network]. *)
Variable DEBUG : bool.
Variable network : namespace.

(** [DEBUG and print(line)] *)
Definition debug_print (line : string) : M D unit :=
  if DEBUG then print line else mret tt.

(** [__init__] *)
Definition init (ssid password attempts wait_loops : PyVal)
  : M D (outcome Wireless) :=
  if negb (ssid_ok ssid) then
    mret (Raised (AssertionError "ssid must be 2 <= len(str) <=32"))
  else if negb (password_ok password) then
    mret (Raised (AssertionError "password must be string"))
  else if negb (count_ok attempts) then
    mret (Raised (AssertionError "attempts must be 1 <= int <= 9"))
  else if negb (count_ok wait_loops) then
    mret (Raised (AssertionError "wait_loops must be 1 <= int <= 9"))
  else
    set_active false;;
    set_active true;;
    mret (Returned (mkWireless (str_of ssid) (str_of password)
                               (int_of attempts) (int_of wait_loops))).

(** The property [status] *)
Definition status : M D string :=
  code ← status_call; mret (status_message network code).

(** [available_wlans]; an exception of [scan()] leaves the method at
    once, past the statements that follow the call. *)
Definition available_wlans : M D (outcome (list AP)) :=
  _wa ← active;
  (if negb _wa then set_active true;; sleep 1 else mret tt);;
  r ← scan;
  match r with
  | Raised e => mret (Raised e)
  | Returned _ws =>
      (if negb _wa then set_active false else mret tt);;
      mret (Returned _ws)
  end.

Definition _ATTEMPT_SLEEP : Z := 15.
Definition _WAIT_SLEEP : Z := 7.

(** The values the inner loop of [connect] runs over: the tuple
    [(self._wait_loops, 0, -1)]. *)
Definition wait_values (self : Wireless) : list Z :=
  [_wait_loops self; 0; -1].

(** [for _l in (self._wait_loops, 0, -1): ...] *)
Fixpoint wait_loop (ls : list Z) (_output : list string) : M D flow :=
  match ls with
  | [] => mret (Fallthrough _output)
  | _l :: ls' =>
      c ← isconnected;
      if c : bool then
        cfg ← ifconfig;
        mret (Exit (Returned (_output ++ [" " +:+ ip_of cfg])))
      else if 1 <? _l then
        debug_print (" Wait " +:+ format_int _l);;
        sleep _WAIT_SLEEP;;
        wait_loop ls' (_output ++ [" Wait " +:+ format_int _l])
      else
        wait_loop ls' _output
  end.

(** The body of the outer loop of [connect] for one value of [_a], up
    to the point where the next iteration starts. *)
Definition attempt (self : Wireless) (_a : Z) (_output : list string)
  : M D flow :=
  let _output := _output ++ ["WLAN " +:+ format_int _a] in
  debug_print ("WLAN " +:+ format_int _a);;
  r ← wlan_connect_call (_ssid self) (_password self);
  match r with
  | Some (OSError (arg0 :: _)) =>
      mret (Exit (Returned
        (_output ++
         [format_val arg0 +:+ ". Probably wrong network password"])))
  | Some (OSError []) => mret (Exit (Raised IndexError))
  | Some e => mret (Exit (Raised e))
  | None =>
      sleep 1;;
      f ← wait_loop (wait_values self) _output;
      match f with
      | Exit r => mret (Exit r)
      | Fallthrough _output =>
          code ← status_call;
          (if DEBUG
           then code' ← status_call; print (status_message network code')
           else mret tt);;
          (if 1 <? _a then sleep _ATTEMPT_SLEEP else mret tt);;
          mret (Fallthrough (_output ++ [status_message network code]))
      end
  end.

(** [for _a in range(self._attempts, 0, -1): ...] *)
Fixpoint attempts_loop (self : Wireless) (as_ : list Z)
    (_output : list string) : M D flow :=
  match as_ with
  | [] => mret (Fallthrough _output)
  | _a :: as' =>
      f ← attempt self _a _output;
      match f with
      | Exit r => mret (Exit r)
      | Fallthrough _output => attempts_loop self as' _output
      end
  end.

(** [connect] *)
Definition connect (self : Wireless) : M D (outcome (list string)) :=
  c ← isconnected;
  if c : bool then
    cfg ← ifconfig;
    mret (Returned [ip_of cfg])
  else
    set_active true;;
    sleep 1;;
    f ← attempts_loop self (range_down (_attempts self) 0) [];
    match f with
    | Exit r => mret r
    | Fallthrough _output =>
        mret (Returned (_output ++ ["WLAN connection failed"]))
    end.

(** [disconnect] *)
Definition disconnect : M D unit :=
  c ← isconnected;
  if c : bool then wlan_disconnect_call;; set_active false else mret tt.

End Methods.

(** ** Observations on a trace *)

Definition is_poll (e : Event) : bool :=
  match e with EvIsConnected _ => true | _ => false end.

Definition is_connected_poll (e : Event) : bool :=
  match e with EvIsConnected true => true | _ => false end.

Definition is_wait_pause (e : Event) : bool :=
  match e with EvSleep 7 => true | _ => false end.

Definition is_power_change (e : Event) : bool :=
  match e with EvSetActive _ => true | _ => false end.

Definition is_connect_request (e : Event) : bool :=
  match e with EvConnect _ _ _ => true | _ => false end.

(** A connect request the radio rejected with an [OSError] that says
    what the fault is: its [args] are not empty. *)
Definition is_rejection (e : Event) : bool :=
  match e with
  | EvConnect _ _ (Some (OSError (_ :: _))) => true
  | _ => false
  end.

(** What [DEBUG and print(line)] adds to the trace. *)
Definition debug_events (DEBUG : bool) (line : string) : list Event :=
  if DEBUG then [EvPrint line] else [].

(** How many events of a kind a trace has. *)
Definition count (p : Event → bool) (evs : list Event) : nat :=
  length (List.filter p evs).

(** The attempt-countdown entries, ["WLAN <digits>"]. *)
Definition is_digit (c : ascii) : bool :=
  let n := nat_of_ascii c in (48 <=? n)%nat && (n <=? 57)%nat.

Definition all_digits (s : string) : bool :=
  forallb is_digit (list_ascii_of_string s).

Definition is_countdown_entry (s : string) : bool :=
  String.prefix "WLAN " s &&
  (0 <? String.length (string_drop 5 s))%nat &&
  all_digits (string_drop 5 s).

(** The characters of a Python identifier (ASCII). *)
Definition is_ident_char (c : ascii) : bool :=
  let n := nat_of_ascii c in
  ((48 <=? n) && (n <=? 57) || (65 <=? n) && (n <=? 90) ||
   (97 <=? n) && (n <=? 122) || (n =? 95))%nat.

Definition identifier (s : string) : bool :=
  forallb is_ident_char (list_ascii_of_string s).

(** The names of a namespace are identifiers, as [dir] gives them for a
    module. *)
Definition identifiers (ns : namespace) : Prop :=
  ∀ s v, In (s, v) ns → identifier s = true.

(** The entries the inner loop logs when no poll finds the radio
    connected: one for each value above 1. *)
Definition wait_entries (ls : list Z) : list string :=
  List.map (λ l, " Wait " +:+ format_int l) (List.filter (λ l, 1 <? l) ls).

(** The entries of an attempt that ends with the status of the radio. *)
Definition attempt_entries (network : namespace) (self : Wireless)
    (ac : Z * Z) : list string :=
  ["WLAN " +:+ format_int ac.1] ++ wait_entries (wait_values self) ++
  [status_message network ac.2].

(** The log a call came back with; empty when it raised. *)
Definition log_of (r : outcome (list string)) : list string :=
  match r with Returned l => l | Raised _ => [] end.


(** ** A scripted radio *)

(** A stand-in for the radio: its power state, the answers it will give
    to the coming [isconnected()] calls (and [False] after them), what
    [ifconfig()] and [status()] give, how it takes a connect request, and
    what a scan finds. *)
Record Stub : Type := mkStub {
  stub_power : bool;
  stub_link : list bool;
  stub_cfg : ifconfig_t;
  stub_code : Z;
  stub_reject : option exn;
  stub_aps : list AP
}.

Definition stub_set_power (b : bool) (d : Stub) : Stub :=
  mkStub b (stub_link d) (stub_cfg d) (stub_code d) (stub_reject d) (stub_aps d).

Definition stub_poll (d : Stub) : bool * Stub :=
  match stub_link d with
  | [] => (false, d)
  | b :: rest =>
      (b, mkStub (stub_power d) rest (stub_cfg d) (stub_code d)
                 (stub_reject d) (stub_aps d))
  end.

#[export] Instance stub_platform : Platform Stub := {|
  wlan_active d := (stub_power d, d);
  wlan_set_active := stub_set_power;
  wlan_isconnected := stub_poll;
  wlan_ifconfig d := (stub_cfg d, d);
  wlan_connect _ _ d := (stub_reject d, d);
  wlan_status d := (stub_code d, d);
  wlan_scan d := (Returned (stub_aps d), d);
  wlan_disconnect d := d;
  time_sleep _ d := d
|}.

(** The status constants of the ESP8266 port of MicroPython, among the
    other attributes of its [network] module. *)
Definition esp8266_network : namespace :=
  [ ("AP_IF", 1); ("STAT_CONNECTING", 1); ("STAT_CONNECT_FAIL", 4);
    ("STAT_GOT_IP", 5); ("STAT_IDLE", 0); ("STAT_NO_AP_FOUND", 3);
    ("STAT_WRONG_PASSWORD", 2); ("STA_IF", 0) ].

Definition cfg_10_0_0_5 : ifconfig_t :=
  ("10.0.0.5", "255.255.255.0", "10.0.0.1", "10.0.0.1").

(** A radio that is powered up, never associates and takes every connect
    request. *)
Definition stub_never : Stub :=
  mkStub true [] ("0.0.0.0", "0.0.0.0", "0.0.0.0", "0.0.0.0") 3 None [].

(** A radio that already reports connected, with address 10.0.0.5. *)
Definition stub_connected : Stub :=
  mkStub true [true] cfg_10_0_0_5 5 None [].

(** A radio that rejects the connect request. *)
Definition stub_rejecting : Stub :=
  mkStub true [] ("0.0.0.0", "0.0.0.0", "0.0.0.0", "0.0.0.0") 2
         (Some (OSError [VStr "network password"])) [].

(** A radio that is powered down and sees one access point. *)
Definition stub_off : Stub :=
  mkStub false [] ("0.0.0.0", "0.0.0.0", "0.0.0.0", "0.0.0.0") 0 None
         [ ([Byte.x4b; Byte.x54], [Byte.x00; Byte.x11], 6, -60, 3, false) ].

Definition example_config (attempts wait_loops : Z) : Wireless :=
  mkWireless "KTLT9000" "enter-password-here" attempts wait_loops.

(** ** Further observations *)

(** The fields of an instance are within the bounds the asserts check. *)
Definition valid (self : Wireless) : Prop :=
  2 ≤ len (_ssid self) ≤ 32 ∧ 1 ≤ _attempts self ≤ 9 ∧
  1 ≤ _wait_loops self ≤ 9.

Definition is_print (e : Event) : bool :=
  match e with EvPrint _ => true | _ => false end.

(** The events [connect] can add to a trace: everything but a power-down,
    a power query, a scan and a disconnect. *)
Definition connect_event (e : Event) : bool :=
  match e with
  | EvSetActive true | EvIsConnected _ | EvIfconfig _ | EvConnect _ _ _
  | EvStatus _ | EvSleep _ | EvPrint _ => true
  | _ => false
  end.

(** The seconds slept in a trace. *)
Definition sleep_total (evs : list Event) : Z :=
  fold_right (λ e acc, match e with EvSleep n => n + acc | _ => acc end) 0 evs.

(** What a connect request raised that [connect] does not turn into a
    log entry: anything but an [OSError] with arguments; an [OSError]
    without arguments becomes the [IndexError] of [e.args[0]]. *)
Definition escapes (raised : exn) : option exn :=
  match raised with
  | OSError (_ :: _) => None
  | OSError [] => Some IndexError
  | e => Some e
  end.

(** A radio with a steady link: it keeps its power state and whether it
    is associated; a connect request associates it when it is powered,
    a disconnection or a power-down ends the association. *)
Record Steady : Type := mkSteady {
  steady_power : bool;
  steady_linked : bool
}.

#[export] Instance steady_platform : Platform Steady := {|
  wlan_active d := (steady_power d, d);
  wlan_set_active b d := mkSteady b (steady_linked d && b);
  wlan_isconnected d := (steady_linked d, d);
  wlan_ifconfig d := (cfg_10_0_0_5, d);
  wlan_connect _ _ d := (None, mkSteady (steady_power d) (steady_power d));
  wlan_status d := (if steady_linked d then 5 else 0, d);
  wlan_scan d := (Returned [], d);
  wlan_disconnect d := mkSteady (steady_power d) false;
  time_sleep _ d := d
|}.

(** The most an attempt with countdown [a] sleeps: 1 after the request,
    7 in the inner loop, and 15 before the next attempt when there is
    one. *)
Definition attempt_sleep_bound (a : Z) : Z := 8 + (if 1 <? a then 15 else 0).

(** What a piece of [connect] did, counted: only events of [connect], no
    power change, so many connect requests and polls at most, so many
    seconds slept at most, and no print unless [DEBUG] is set. *)
Definition measures (DEBUG : bool) (evs : list Event)
    (requests polls : nat) (slept : Z) : Prop :=
  forallb connect_event evs = true ∧
  count is_power_change evs = 0%nat ∧
  (count is_connect_request evs ≤ requests)%nat ∧
  (count is_poll evs ≤ polls)%nat ∧
  0 ≤ sleep_total evs ≤ slept ∧
  (DEBUG = false → count is_print evs = 0%nat).

(** How the events of a loop of [connect] go with the way it ends. *)
Definition flow_facts (self : Wireless) (evs : list Event) (f : flow) : Prop :=
  match f with
  | Fallthrough _ => existsb is_connected_poll evs = false
  | Exit (Returned log) =>
      (∃ pre cfg log',
         evs = pre ++ [EvIsConnected true; EvIfconfig cfg] ∧
         log = log' ++ [" " +:+ ip_of cfg] ∧
         existsb is_connected_poll pre = false) ∨
      (∃ pre arg0 rest log',
         evs = pre ++ [EvConnect (_ssid self) (_password self)
                         (Some (OSError (arg0 :: rest)))] ∧
         log = log' ++
               [format_val arg0 +:+ ". Probably wrong network password"] ∧
         existsb is_connected_poll evs = false)
  | Exit (Raised e) =>
      ∃ pre e',
        evs = pre ++ [EvConnect (_ssid self) (_password self) (Some e')] ∧
        escapes e' = Some e ∧
        existsb is_connected_poll evs = false
  end.

(** The most the attempts of a list of countdowns sleep. *)
Definition sleep_bound_sum (as_ : list Z) : Z :=
  fold_right (λ a acc, attempt_sleep_bound a + acc) 0 as_.

(** A connect request that raised. *)
Definition is_raising_request (e : Event) : bool :=
  match e with EvConnect _ _ (Some _) => true | _ => false end.

(** How the trace of a call of [connect] goes with its outcome. *)
Definition connect_facts (self : Wireless) (tr : list Event)
    (r : outcome (list string)) : Prop :=
  match r with
  | Returned log =>
      (∃ pre cfg log',
         tr = pre ++ [EvIsConnected true; EvIfconfig cfg] ∧
         (log = log' ++ [ip_of cfg] ∨ log = log' ++ [" " +:+ ip_of cfg]) ∧
         existsb is_connected_poll pre = false) ∨
      (∃ pre arg0 rest log',
         tr = pre ++ [EvConnect (_ssid self) (_password self)
                        (Some (OSError (arg0 :: rest)))] ∧
         log = log' ++
               [format_val arg0 +:+ ". Probably wrong network password"] ∧
         existsb is_connected_poll tr = false) ∨
      (∃ log', log = log' ++ ["WLAN connection failed"] ∧
               existsb is_connected_poll tr = false ∧
               existsb is_raising_request tr = false)
  | Raised e =>
      ∃ pre e',
        tr = pre ++ [EvConnect (_ssid self) (_password self) (Some e')] ∧
        escapes e' = Some e ∧
        existsb is_connected_poll tr = false
  end.

(** The scripted radio with a scan that fails: [scan()] raises an
    [OSError]; its other calls are those of the scripted radio. *)
Definition stub_scan_fails : Platform Stub := {|
  wlan_active d := (stub_power d, d);
  wlan_set_active := stub_set_power;
  wlan_isconnected := stub_poll;
  wlan_ifconfig d := (stub_cfg d, d);
  wlan_connect _ _ d := (stub_reject d, d);
  wlan_status d := (stub_code d, d);
  wlan_scan d := (Raised (OSError [VStr "scan failed"]), d);
  wlan_disconnect d := d;
  time_sleep _ d := d
|}.

(** * Properties *)

(** ** The status table *)

Section StatusTableFacts.

Let put (out : gmap Z string) (c : string * Z) : gmap Z string :=
  let '(s, v) := c in <[ v := string_drop 5 s ]> out.

Lemma build_unfold ns : build ns = foldl put ∅ (stats ns).
Proof. reflexivity. Qed.

Lemma in_stats ns s code :
  In (s, code) (stats ns) ↔ In (s, code) ns ∧ contains "STAT_" s = true.
Proof. unfold stats. rewrite filter_In. reflexivity. Qed.

(** A code no constant of the list has keeps what the table had. *)
Lemma foldl_put_absent l : ∀ m code,
  (∀ s, ¬ In (s, code) l) → foldl put m l !! code = m !! code.
Proof.
  induction l as [|[s v] l IH]; intros m code Hno; simpl; [done|].
  rewrite IH.
  - apply lookup_insert_ne. intros ->. apply (Hno s). now left.
  - intros s' Hin. apply (Hno s'). now right.
Qed.

(** A code some constant of the list has is given the label of the
    last constant with that code. *)
Lemma foldl_put_present l : ∀ m code s,
  In (s, code) l →
  ∃ l1 s' l2, l = l1 ++ (s', code) :: l2 ∧ (∀ s'', ¬ In (s'', code) l2) ∧
              foldl put m l !! code = Some (string_drop 5 s').
Proof.
  induction l as [|[s0 v] l IH]; intros m code s Hin; [destruct Hin|].
  simpl.
  assert (Hdec : (∃ s1, In (s1, code) l) ∨ ¬ (∃ s1, In (s1, code) l)).
  { destruct (in_dec Z.eq_dec code (List.map snd l)) as [Hi|Hn].
    - left. apply in_map_iff in Hi as ([s1 c] & Hc & Hi). simpl in Hc.
      subst. eauto.
    - right. intros [s1 H1]. apply Hn. apply in_map_iff.
      exists (s1, code). auto. }
  destruct Hdec as [[s1 H1]|Hnone].
  - destruct (IH (<[v:=string_drop 5 s0]> m) code s1 H1)
      as (l1 & s' & l2 & -> & Hl2 & Hlk).
    exists ((s0, v) :: l1), s', l2. split; [done|]. split; [done|].
    exact Hlk.
  - destruct Hin as [Heq|Hin]; [|exfalso; eauto].
    inversion Heq; subst.
    exists [], s, l. split; [done|]. split.
    + intros s'' Hs. apply Hnone. eauto.
    + rewrite foldl_put_absent; [apply lookup_insert_eq|].
      intros s'' Hs. apply Hnone. eauto.
Qed.

End StatusTableFacts.

(** A string that begins with [p] is [p] followed by what is left of it
    after as many bytes. *)
Lemma prefix_drop p : ∀ s,
  String.prefix p s = true → s = p +:+ bytes_drop (String.length p) s.
Proof.
  induction p as [|a p IH]; intros s Hp; [reflexivity|].
  destruct s as [|b s]; [discriminate|].
  cbn [String.prefix] in Hp.
  destruct (ascii_dec a b) as [->|]; [|discriminate].
  change (String b s = String b (p +:+ bytes_drop (String.length p) s)).
  f_equal. now apply IH.
Qed.

Lemma prefix_split p s : String.prefix p s = true → ∃ t, s = p +:+ t.
Proof. intros Hp. eexists. now apply prefix_drop. Qed.

(** After a prefix of five one-byte characters, five characters are five
    bytes. *)
Lemma string_drop_STAT s :
  String.prefix "STAT_" s = true → string_drop 5 s = bytes_drop 5 s.
Proof. intros Hp. apply prefix_split in Hp as [t ->]. reflexivity. Qed.

Lemma string_drop_WLAN s :
  String.prefix "WLAN " s = true → string_drop 5 s = bytes_drop 5 s.
Proof. intros Hp. apply prefix_split in Hp as [t ->]. reflexivity. Qed.

Lemma prefix_STAT_drop s :
  String.prefix "STAT_" s = true → s = "STAT_" +:+ string_drop 5 s.
Proof.
  intros Hp. rewrite (string_drop_STAT s Hp). now apply (prefix_drop "STAT_").
Qed.

(** C7. For every integer status code: when some status constant of the
    driver has the code as its value, [status_message] returns the name
    of a constant with that code as the table holds it (the identifier
    without its first five characters, the last such constant in [dir]
    order; with the prefix ["STAT_"] put back it is the identifier);
    when no status constant has the code, it returns ["ERROR <code>?"].
    The lookup is a total function: it returns a string in both cases. *)
Theorem status_message_lookup (ns : namespace) (code : Z) :
  (known ns code →
     ∃ s, In (s, code) ns ∧ contains "STAT_" s = true ∧
          status_message ns code = string_drop 5 s ∧
          (String.prefix "STAT_" s = true →
             s = "STAT_" +:+ status_message ns code) ∧
          (NoDup (List.map snd (stats ns)) →
             ∀ s', In (s', code) ns → contains "STAT_" s' = true → s' = s)) ∧
  (¬ known ns code →
     status_message ns code = "ERROR " +:+ format_int code +:+ "?").
Proof.
  split.
  - intros (s0 & Hin & Hc).
    assert (Hs : In (s0, code) (stats ns)) by (apply in_stats; auto).
    destruct (foldl_put_present (stats ns) ∅ code s0 Hs)
      as (l1 & s & l2 & Hl & Hl2 & Hlk).
    assert (Hs' : In (s, code) (stats ns)).
    { rewrite Hl. apply in_or_app. right. now left. }
    apply in_stats in Hs' as [Hns Hcs].
    assert (Hmsg : status_message ns code = string_drop 5 s).
    { unfold status_message. rewrite build_unfold, Hlk. reflexivity. }
    exists s. repeat split; auto.
    + intros Hp. rewrite Hmsg. now apply prefix_STAT_drop.
    + intros Hnd s' Hin' Hc'.
      assert (Hs'' : In (s', code) (stats ns)) by (apply in_stats; auto).
      rewrite Hl in Hnd, Hs''.
      rewrite map_app in Hnd. simpl in Hnd.
      apply NoDup_ListNoDup in Hnd.
      apply List.NoDup_remove_2 in Hnd.
      apply in_app_or in Hs'' as [H1|[H2|H3]].
      * exfalso. apply Hnd. apply in_or_app. left.
        apply in_map_iff. exists (s', code). auto.
      * now inversion H2.
      * exfalso. now apply (Hl2 s').
  - intros Hno. unfold status_message. rewrite build_unfold.
    rewrite foldl_put_absent.
    + rewrite lookup_empty. reflexivity.
    + intros s Hs. apply in_stats in Hs as [Hin Hc].
      apply Hno. exists s. auto.
Qed.

(** On the ESP8266 constants: code 2 is a known code, its label is
    [WRONG_PASSWORD]; code -7 is unknown. *)
Lemma status_message_lookup_witness :
  (∃ s, In (s, 2) esp8266_network ∧ contains "STAT_" s = true ∧
        status_message esp8266_network 2 = string_drop 5 s ∧
        s = "STAT_WRONG_PASSWORD") ∧
  status_message esp8266_network (-7) = "ERROR -7?".
Proof.
  destruct (status_message_lookup esp8266_network 2) as [Hk _].
  destruct (status_message_lookup esp8266_network (-7)) as [_ Hu].
  split.
  - assert (Hin2 : In ("STAT_WRONG_PASSWORD", 2) esp8266_network)
      by (simpl; tauto).
    destruct Hk as (s & Hin & Hc & Hm & _ & Huniq).
    + exists "STAT_WRONG_PASSWORD". split; [exact Hin2 | reflexivity].
    + exists s. repeat split; auto. symmetry. apply Huniq.
      * apply (bool_decide_unpack _). vm_compute. exact I.
      * exact Hin2.
      * reflexivity.
  - apply Hu. intros (s & Hin & Hc). simpl in Hin.
    repeat (destruct Hin as [Hin|Hin]; [inversion Hin|]). destruct Hin.
Defined.

(** ** Configuration *)

(** C8. A setter given an out-of-bound value (a network name shorter
    than 2 or longer than 32, a number of attempts or of wait loops below
    1 or above 9) fails with the assertion error of its field and leaves
    the instance as it was: the check comes before the assignment. *)
Theorem setters_reject_out_of_bounds (self : Wireless) :
  (∀ s, len s < 2 ∨ 32 < len s →
     Setters.ssid (VStr s) self =
       (Raised (AssertionError "ssid must be 2 <= str <=32"), self)) ∧
  (∀ n, n < 1 ∨ 9 < n →
     Setters.attempts (VInt n) self =
       (Raised (AssertionError "attempts must be 1 <= int <= 9"), self)) ∧
  (∀ n, n < 1 ∨ 9 < n →
     Setters.wait_loops (VInt n) self =
       (Raised (AssertionError "wait_loops must be 1 <= int <= 9"), self)).
Proof.
  repeat split.
  - intros s Hs. unfold Setters.ssid, ssid_ok.
    destruct (2 <=? len s) eqn:E1; destruct (len s <=? 32) eqn:E2;
      try reflexivity.
    apply Z.leb_le in E1, E2. lia.
  - intros n Hn. unfold Setters.attempts, count_ok.
    destruct (1 <=? n) eqn:E1; destruct (n <=? 9) eqn:E2; try reflexivity.
    apply Z.leb_le in E1, E2. lia.
  - intros n Hn. unfold Setters.wait_loops, count_ok.
    destruct (1 <=? n) eqn:E1; destruct (n <=? 9) eqn:E2; try reflexivity.
    apply Z.leb_le in E1, E2. lia.
Qed.

(** The values of the claim: names of length 0, 1 and 33, counts 0 and
    10, on the configuration of the module's own example. *)
Lemma setters_reject_out_of_bounds_witness :
  let self := example_config 5 5 in
  let fails (r : outcome unit * Wireless) :=
    (∃ msg, r.1 = Raised (AssertionError msg)) ∧ r.2 = self in
  fails (Setters.ssid (VStr "") self) ∧
  fails (Setters.ssid (VStr "K") self) ∧
  fails (Setters.ssid (VStr "ł") self) ∧
  fails (Setters.ssid (VStr "123456789012345678901234567890123") self) ∧
  fails (Setters.attempts (VInt 0) self) ∧
  fails (Setters.attempts (VInt 10) self) ∧
  fails (Setters.wait_loops (VInt 0) self) ∧
  fails (Setters.wait_loops (VInt 10) self).
Proof.
  intros self fails.
  destruct (setters_reject_out_of_bounds self) as (Hs & Ha & Hw).
  unfold fails.
  rewrite (Hs "") by (vm_compute; left; reflexivity).
  rewrite (Hs "K") by (vm_compute; left; reflexivity).
  rewrite (Hs "ł") by (vm_compute; left; reflexivity).
  rewrite (Hs "123456789012345678901234567890123")
    by (vm_compute; right; reflexivity).
  rewrite (Ha 0), (Ha 10), (Hw 0), (Hw 10) by lia.
  simpl. repeat split; eauto.
Defined.

(** C9. Whatever secret is stored, the getter of the secret returns
    [None]: never the stored secret, and the same for every secret. *)
Theorem password_getter_hides_secret (self : Wireless) (secret : string) :
  let self' := (Setters.password (VStr secret) self).2 in
  _password self' = secret ∧
  Getters.password self' = VNone ∧
  Getters.password self' ≠ VStr secret ∧
  ∀ other, Getters.password (Setters.password (VStr other) self).2
           = Getters.password self'.
Proof.
  simpl. repeat split. discriminate.
Qed.

(** ** Running the methods *)

(** Unfolds the calls on the world down to the calls on the platform. *)
Ltac unfold_calls :=
  unfold debug_print, active, set_active, isconnected, ifconfig,
    wlan_connect_call, status_call, scan, wlan_disconnect_call, sleep, print,
    emit, mbind, M_bind, mret, M_ret, start in *;
  cbn [radio trace fst snd app] in *.

(** Names the answer and the next state of a call on the platform. *)
Ltac name_call t r d E :=
  cbn [radio trace fst snd app] in *;
  destruct t as [r d] eqn:E;
  cbn [radio trace fst snd app] in *.

(** Does so for the next call the goal runs into. *)
Ltac next_call :=
  cbn [radio trace fst snd app] in *;
  match goal with
  | |- context [match ?t with (_, _) => _ end] =>
      let r := fresh "r" in let d := fresh "d" in let E := fresh "E" in
      destruct t as [r d] eqn:E
  end;
  cbn [radio trace fst snd app] in *.

(** C6. When the radio already reports connected at the call of
    [connect], the log returned has one entry, the address the radio
    holds, and the only calls made on the radio are the connectivity
    query and the address query: its power is not touched and no connect
    request is issued. *)
Theorem connect_already_connected {D} `{Platform D}
    (DEBUG : bool) (network : namespace) (self : Wireless) (d : D) :
  (wlan_isconnected d).1 = true →
  let d1 := (wlan_isconnected d).2 in
  let cfg := (wlan_ifconfig d1).1 in
  let r := connect DEBUG network self (start d) in
  r.1 = Returned [ip_of cfg] ∧
  trace r.2 = [EvIsConnected true; EvIfconfig cfg] ∧
  radio r.2 = (wlan_ifconfig d1).2 ∧
  count is_power_change (trace r.2) = 0%nat ∧
  count is_connect_request (trace r.2) = 0%nat.
Proof.
  intros Hc. unfold connect. unfold_calls.
  name_call (wlan_isconnected d) c d1 E1. subst c.
  name_call (wlan_ifconfig d1) cfg d2 E2.
  repeat split.
Qed.

(** The scenario of the specification: the radio reports connected with
    address 10.0.0.5. *)
Lemma connect_already_connected_witness :
  (connect false esp8266_network (example_config 5 5) (start stub_connected)).1
  = Returned ["10.0.0.5"].
Proof.
  exact (proj1 (connect_already_connected false esp8266_network
                  (example_config 5 5) stub_connected eq_refl)).
Defined.

(** ** Scanning *)

(** C10, at its failing input: a radio found powered down whose [scan()]
    raises.  [available_wlans] powers the radio up, pauses, asks for the
    scan, and the exception leaves the method: the statement under
    [# Reinstate state] is not reached, no power-down is issued, and the
    radio that was powered down on entry is left powered up. *)
Theorem available_wlans_scan_raises :
  let r := @available_wlans Stub stub_scan_fails (start stub_off) in
  stub_power stub_off = false ∧
  r.1 = Raised (OSError [VStr "scan failed"]) ∧
  trace r.2 = [EvActive false; EvSetActive true; EvSleep 1;
               EvScan (Raised (OSError [VStr "scan failed"]))] ∧
  count (λ e, match e with EvSetActive false => true | _ => false end)
        (trace r.2) = 0%nat ∧
  stub_power (radio r.2) = true.
Proof.
  vm_compute. repeat split.
Qed.

Section ScanPower.
Context {D : Type} `{Platform D}.

(** The power state of the radio, as its driver keeps it: [active()]
    reports it, [active(b)] sets it, and neither the query, nor a scan,
    nor the passing of time changes it. *)
Variable powered : D → bool.
Hypothesis active_reports : ∀ d, (wlan_active d).1 = powered d.
Hypothesis active_keeps : ∀ d, powered (wlan_active d).2 = powered d.
Hypothesis set_active_sets : ∀ b d, powered (wlan_set_active b d) = b.
Hypothesis scan_keeps : ∀ d, powered (wlan_scan d).2 = powered d.
Hypothesis sleep_keeps : ∀ n d, powered (time_sleep n d) = powered d.

(** X17. The power state [available_wlans] leaves the radio in.  When
    the scan returns, the radio is in the power state it was found in:
    found powered down, it is powered up once, scanned after a pause of
    1 and powered down once, after the scan; found powered up, it is only
    asked for its power state and scanned.  When the scan raises, the
    exception is raised to the caller, the scan is the last call made,
    and the radio is left powered up, also when it was found powered
    down. *)
Theorem available_wlans_power_after (d : D) :
  let r := available_wlans (start d) in
  (∀ aps, r.1 = Returned aps →
     powered (radio r.2) = powered d ∧
     (powered d = false →
        trace r.2 = [EvActive false; EvSetActive true; EvSleep 1;
                     EvScan (Returned aps); EvSetActive false]) ∧
     (powered d = true →
        trace r.2 = [EvActive true; EvScan (Returned aps)])) ∧
  (∀ e, r.1 = Raised e →
     powered (radio r.2) = true ∧
     (powered d = false →
        trace r.2 = [EvActive false; EvSetActive true; EvSleep 1;
                     EvScan (Raised e)]) ∧
     (powered d = true →
        trace r.2 = [EvActive true; EvScan (Raised e)])).
Proof.
  cbv zeta.
  destruct (available_wlans (start d)) as [o w'] eqn:Er. cbn [fst snd].
  revert Er. unfold available_wlans. unfold_calls.
  pose proof (active_reports d) as Hrep.
  pose proof (active_keeps d) as Hkeep.
  name_call (wlan_active d) wa d1 E1. subst wa.
  destruct (powered d) eqn:Hp; cbn [negb].
  - pose proof (scan_keeps d1) as Hscan.
    name_call (wlan_scan d1) r d2 E2.
    destruct r as [aps|e]; cbn [radio trace fst snd app]; intros [= <- <-];
      split; intros x [= <-]; cbn [radio trace];
      (split; [congruence|]); (split; [discriminate | reflexivity]).
  - pose proof (scan_keeps (time_sleep 1 (wlan_set_active true d1))) as Hscan.
    rewrite sleep_keeps, set_active_sets in Hscan.
    name_call (wlan_scan (time_sleep 1 (wlan_set_active true d1))) r d2 E2.
    destruct r as [aps|e]; cbn [radio trace fst snd app]; intros [= <- <-];
      split; intros x [= <-]; cbn [radio trace].
    + split; [apply set_active_sets|]. split; [reflexivity | discriminate].
    + split; [exact Hscan|]. split; [reflexivity | discriminate].
Qed.

End ScanPower.

(** The scripted radio keeps its power state as the hypotheses ask.
    Found powered down, it is powered down after a scan that returns,
    which was bracketed by one power-up and one power-down; and it is
    powered up after a scan that raises. *)
Lemma available_wlans_power_after_witness :
  (let r := available_wlans (start stub_off) in
   stub_power (radio r.2) = false ∧
   ∃ aps, trace r.2 = [EvActive false; EvSetActive true; EvSleep 1;
                       EvScan (Returned aps); EvSetActive false]) ∧
  (let r := @available_wlans Stub stub_scan_fails (start stub_off) in
   stub_power (radio r.2) = true).
Proof.
  split.
  - destruct (@available_wlans_power_after Stub stub_platform stub_power
                (λ d, eq_refl) (λ d, eq_refl) (λ b d, eq_refl)
                (λ d, eq_refl) (λ n d, eq_refl) stub_off) as [Hret _].
    destruct (Hret (stub_aps stub_off) eq_refl) as (Hp & Hoff & _).
    split; [exact Hp|]. eexists. exact (Hoff eq_refl).
  - destruct (@available_wlans_power_after Stub stub_scan_fails stub_power
                (λ d, eq_refl) (λ d, eq_refl) (λ b d, eq_refl)
                (λ d, eq_refl) (λ n d, eq_refl) stub_off) as [_ Hraise].
    exact (proj1 (Hraise (OSError [VStr "scan failed"]) eq_refl)).
Defined.

(** ** Log entries *)

Lemma range_down_cons (start stop : Z) :
  stop < start → range_down start stop = start :: range_down (start - 1) stop.
Proof.
  intros Hlt. unfold range_down.
  replace (Z.to_nat (start - stop)) with (S (Z.to_nat (start - 1 - stop))) by lia.
  cbn [seq List.map]. f_equal; [lia|].
  rewrite <- seq_shift, List.map_map.
  apply List.map_ext. intros i. lia.
Qed.

Lemma range_down_nil (start stop : Z) :
  start ≤ stop → range_down start stop = [].
Proof.
  intros Hle. unfold range_down.
  replace (Z.to_nat (start - stop)) with O by lia. reflexivity.
Qed.

(** The entry of an attempt of a valid configuration is a countdown
    entry. *)
Lemma countdown_entry_digit (a : Z) :
  1 ≤ a ≤ 9 → is_countdown_entry ("WLAN " +:+ format_int a) = true.
Proof.
  intros Ha.
  assert (Hc : a = 1 ∨ a = 2 ∨ a = 3 ∨ a = 4 ∨ a = 5 ∨ a = 6 ∨ a = 7 ∨
               a = 8 ∨ a = 9) by lia.
  repeat (destruct Hc as [->|Hc]; [reflexivity|]). subst. reflexivity.
Qed.

(** The entry that describes a fault is not a countdown entry, whatever
    the fault says. *)
Lemma fault_entry_not_digits (s : string) : ∀ n, (n ≤ 5)%nat →
  all_digits (bytes_drop n (s +:+ ". Probably wrong network password")) = false.
Proof.
  induction s as [|c s IH]; intros n Hn.
  - do 6 (destruct n as [|n]; [reflexivity|]). lia.
  - destruct n as [|n].
    + change (is_digit c &&
              all_digits (bytes_drop 0
                (s +:+ ". Probably wrong network password")) = false).
      rewrite IH by lia. apply andb_false_r.
    + change (all_digits (bytes_drop n
                (s +:+ ". Probably wrong network password")) = false).
      apply IH. lia.
Qed.

Lemma length_append (s t : string) :
  String.length (s +:+ t) = (String.length s + String.length t)%nat.
Proof.
  induction s as [|c s IH]; [reflexivity|].
  change (S (String.length (s +:+ t)) = S (String.length s + String.length t)).
  now rewrite IH.
Qed.

Lemma fault_entry_not_failed (s : string) :
  s +:+ ". Probably wrong network password" ≠ "WLAN connection failed".
Proof.
  intros Heq. apply (f_equal String.length) in Heq.
  rewrite length_append in Heq. cbn in Heq. lia.
Qed.

Lemma countdown_entry_not_failed (a : Z) :
  1 ≤ a ≤ 9 → "WLAN " +:+ format_int a ≠ "WLAN connection failed".
Proof.
  intros Ha.
  assert (Hc : a = 1 ∨ a = 2 ∨ a = 3 ∨ a = 4 ∨ a = 5 ∨ a = 6 ∨ a = 7 ∨
               a = 8 ∨ a = 9) by lia.
  repeat (destruct Hc as [->|Hc]; [discriminate|]). subst. discriminate.
Qed.

Lemma fault_entry_not_countdown (s : string) :
  is_countdown_entry (s +:+ ". Probably wrong network password") = false.
Proof.
  unfold is_countdown_entry.
  destruct (String.prefix "WLAN "
              (s +:+ ". Probably wrong network password")) eqn:Hp;
    [|reflexivity].
  rewrite (string_drop_WLAN _ Hp).
  rewrite (fault_entry_not_digits s 5) by lia. apply andb_false_r.
Qed.

(** ** A rejected connect request *)

(** X16. When the radio is not connected at the call, the number of
    attempts is in 1..9 and the connect request of the first attempt
    signals an [OSError] that says what the fault is in its first
    argument, [connect] returns the entry of
    that attempt followed by one entry that describes the fault as a
    probably wrong password, and nothing more: the request is the last
    thing done, there is one countdown entry only, and the entry
    ["WLAN connection failed"] is absent. *)
Theorem connect_first_request_rejected {D} `{Platform D}
    (DEBUG : bool) (network : namespace) (self : Wireless) (d : D)
    (arg0 : PyVal) (rest : list PyVal) :
  1 ≤ _attempts self ≤ 9 →
  (wlan_isconnected d).1 = false →
  (wlan_connect (_ssid self) (_password self)
     (time_sleep 1 (wlan_set_active true (wlan_isconnected d).2))).1
    = Some (OSError (arg0 :: rest)) →
  let r := connect DEBUG network self (start d) in
  let entry := "WLAN " +:+ format_int (_attempts self) in
  let fault := format_val arg0 +:+ ". Probably wrong network password" in
  r.1 = Returned [entry; fault] ∧
  trace r.2 =
    [EvIsConnected false; EvSetActive true; EvSleep 1] ++
    debug_events DEBUG entry ++
    [EvConnect (_ssid self) (_password self) (Some (OSError (arg0 :: rest)))] ∧
  List.filter is_countdown_entry (log_of r.1) = [entry] ∧
  ¬ In "WLAN connection failed" (log_of r.1).
Proof.
  intros Ha Hc Hrej. cbv zeta. unfold connect.
  rewrite range_down_cons by lia. cbn [attempts_loop]. unfold attempt.
  unfold_calls.
  name_call (wlan_isconnected d) c d1 E1. subst c.
  destruct DEBUG; cbn [debug_events];
    name_call (wlan_connect (_ssid self) (_password self)
                 (time_sleep 1 (wlan_set_active true d1))) r d2 E2;
    subst r; cbn [fst snd trace log_of List.filter];
    rewrite countdown_entry_digit by lia;
    rewrite fault_entry_not_countdown.
  all: repeat split.
  all: intros [Hin|[Hin|[]]];
    [ now apply countdown_entry_not_failed in Hin; [|lia]
    | now apply fault_entry_not_failed in Hin ].
Qed.

(** The scenario of the specification: the connect request raises an
    [OSError] with the message "network password", with 2 attempts
    configured. *)
Lemma connect_first_request_rejected_witness :
  (connect false esp8266_network (example_config 2 5) (start stub_rejecting)).1
  = Returned ["WLAN 2"; "network password. Probably wrong network password"].
Proof.
  refine (proj1 (connect_first_request_rejected false esp8266_network
                   (example_config 2 5) stub_rejecting
                   (VStr "network password") [] _ eq_refl eq_refl)).
  simpl. lia.
Defined.

Section Rejection.
Context {D : Type} `{Platform D}.
Variable DEBUG : bool.
Variable network : namespace.

Lemma debug_print_run line (w : World D) :
  debug_print DEBUG line w
  = (tt, mkWorld (radio w) (trace w ++ debug_events DEBUG line)).
Proof.
  unfold debug_print, debug_events. destruct DEBUG; [reflexivity|].
  destruct w. cbn. now rewrite app_nil_r.
Qed.

Lemma debug_events_no_rejection line :
  existsb is_rejection (debug_events DEBUG line) = false.
Proof. unfold debug_events. now destruct DEBUG. Qed.

(** The inner loop adds events to the trace, none of them a connect
    request. *)
Lemma wait_loop_no_rejection ls : ∀ out (w : World D),
  ∃ evs, trace (wait_loop DEBUG ls out w).2 = trace w ++ evs ∧
         existsb is_rejection evs = false.
Proof.
  induction ls as [|l ls IH]; intros out w.
  - exists []. cbn. now rewrite app_nil_r.
  - cbn [wait_loop]. unfold_calls.
    name_call (wlan_isconnected (radio w)) c d1 E1.
    destruct c.
    + name_call (wlan_ifconfig d1) cfg d2 E2.
      eexists. rewrite <- app_assoc. split; reflexivity.
    + destruct (1 <? l); [destruct DEBUG|]; cbn [radio trace fst snd];
        match goal with
        | |- context [wait_loop _ ls ?o ?w'] =>
            destruct (IH o w') as (evs & Ht & Hn); rewrite Ht
        end; cbn [trace]; rewrite <- ?app_assoc;
        eexists; (split; [reflexivity|]); cbn; exact Hn.
Qed.

(** An attempt either ends [connect] on a rejected request, which is
    then the last event, with the fault as the last entry of the log
    returned; or it adds no rejected request to the trace. *)
Lemma attempt_rejection (self : Wireless) (a : Z) out (w : World D) :
  let r := attempt DEBUG network self a out w in
  (∃ log arg0 rest pre,
      r.1 = Exit (Returned
              (log ++ [format_val arg0 +:+ ". Probably wrong network password"])) ∧
      trace r.2 = pre ++ [EvConnect (_ssid self) (_password self)
                            (Some (OSError (arg0 :: rest)))]) ∨
  (∃ evs, trace r.2 = trace w ++ evs ∧ existsb is_rejection evs = false).
Proof.
  cbv zeta.
  destruct (attempt DEBUG network self a out w) as [f w'] eqn:Er.
  cbn [fst snd]. revert Er.
  unfold attempt. unfold mbind at 1. unfold M_bind at 1.
  rewrite debug_print_run.
  pose proof (debug_events_no_rejection ("WLAN " +:+ format_int a)) as Hnd.
  set (dbg := debug_events DEBUG ("WLAN " +:+ format_int a)) in *.
  set (w1 := mkWorld (radio w) (trace w ++ dbg)).
  assert (Hdbg : trace w1 = trace w ++ dbg) by reflexivity.
  clearbody w1 dbg. unfold_calls.
  name_call (wlan_connect (_ssid self) (_password self) (radio w1)) r d2 E2.
  destruct r as [[msg|[|arg0 rest]| |name]|]; cbn [fst snd trace radio].
  - intros [= <- <-]. right. eexists. cbn [trace].
    rewrite Hdbg, <- app_assoc. split; [reflexivity|].
    rewrite existsb_app, Hnd. reflexivity.
  - intros [= <- <-]. right. eexists. cbn [trace].
    rewrite Hdbg, <- app_assoc. split; [reflexivity|].
    rewrite existsb_app, Hnd. reflexivity.
  - intros [= <- <-]. left.
    exists (out ++ ["WLAN " +:+ format_int a]), arg0, rest, (trace w1).
    split; reflexivity.
  - intros [= <- <-]. right. eexists. cbn [trace].
    rewrite Hdbg, <- app_assoc. split; [reflexivity|].
    rewrite existsb_app, Hnd. reflexivity.
  - intros [= <- <-]. right. eexists. cbn [trace].
    rewrite Hdbg, <- app_assoc. split; [reflexivity|].
    rewrite existsb_app, Hnd. reflexivity.
  - match goal with
    | |- context [wait_loop _ ?ls ?o ?w0] =>
        destruct (wait_loop_no_rejection ls o w0) as (evs & Ht & Hn);
        destruct (wait_loop DEBUG ls o w0) as [f3 w3]
    end.
    cbn [fst snd trace] in *.
    destruct f3 as [out'|r'].
    + name_call (wlan_status (radio w3)) code d4 E4.
      destruct DEBUG; [name_call (wlan_status d4) code' d5 E5|];
        destruct (1 <? a); cbn [fst snd trace radio];
        intros [= <- <-]; right; cbn [trace];
        rewrite Ht, Hdbg, <- !app_assoc;
        eexists; (split; [reflexivity|]);
        rewrite !existsb_app, Hnd, Hn; reflexivity.
    + intros [= <- <-]. right.
      eexists. rewrite Ht, Hdbg, <- !app_assoc.
      split; [reflexivity|]. rewrite !existsb_app, Hnd, Hn. reflexivity.
Qed.

(** So for the loop over the attempts: when a request is rejected in
    it, [connect] returns from inside it. *)
Lemma attempts_loop_rejection (self : Wireless) as_ : ∀ out (w : World D),
  existsb is_rejection (trace w) = false →
  let r := attempts_loop DEBUG network self as_ out w in
  existsb is_rejection (trace r.2) = true →
  ∃ log arg0 rest pre,
    r.1 = Exit (Returned
            (log ++ [format_val arg0 +:+ ". Probably wrong network password"])) ∧
    trace r.2 = pre ++ [EvConnect (_ssid self) (_password self)
                          (Some (OSError (arg0 :: rest)))].
Proof.
  induction as_ as [|a as_ IH]; intros out w Hw; cbv zeta.
  - cbn. congruence.
  - cbn [attempts_loop]. unfold mbind, M_bind.
    pose proof (attempt_rejection self a out w) as Hatt. cbv zeta in Hatt.
    destruct (attempt DEBUG network self a out w) as [f w1].
    cbn [fst snd] in Hatt.
    destruct Hatt as [(log & arg0 & rest & pre & -> & Ht)|(evs & Ht & Hn)].
    + intros _. exists log, arg0, rest, pre. split; [reflexivity | exact Ht].
    + assert (Hw1 : existsb is_rejection (trace w1) = false)
        by (rewrite Ht, existsb_app, Hw, Hn; reflexivity).
      destruct f as [out'|r'].
      * apply IH. exact Hw1.
      * cbn. congruence.
Qed.

End Rejection.

(** C4 (as amended). When the radio rejects a connect request with an
    [OSError] that says what the fault is, in whatever attempt, [connect]
    does not raise: it returns its log, whose last entry describes the
    fault, and the rejected request is the last thing it did, so the
    fault ends that call. *)
Theorem connect_rejection_returns {D} `{Platform D}
    (DEBUG : bool) (network : namespace) (self : Wireless) (d : D) :
  let r := connect DEBUG network self (start d) in
  existsb is_rejection (trace r.2) = true →
  ∃ log arg0 rest pre,
    r.1 = Returned
            (log ++ [format_val arg0 +:+ ". Probably wrong network password"]) ∧
    trace r.2 = pre ++ [EvConnect (_ssid self) (_password self)
                          (Some (OSError (arg0 :: rest)))] ∧
    ∀ e, r.1 ≠ Raised e.
Proof.
  cbv zeta. unfold connect. unfold_calls.
  name_call (wlan_isconnected d) c d1 E1. destruct c.
  - name_call (wlan_ifconfig d1) cfg d2 E2. cbn. discriminate.
  - match goal with
    | |- context [attempts_loop _ _ _ ?l ?o ?w'] =>
        pose proof (attempts_loop_rejection DEBUG network self l o w' eq_refl)
          as Hloop; cbv zeta in Hloop;
        destruct (attempts_loop DEBUG network self l o w') as [f w2]
    end.
    cbn [fst snd] in Hloop.
    destruct f as [out'|r']; cbn [fst snd trace]; intros Hrej;
      destruct (Hloop Hrej) as (log & arg0 & rest & pre & Hf & Ht); [discriminate|].
    inversion Hf; subst. exists log, arg0, rest, pre.
    repeat split; [exact Ht | discriminate].
Qed.

(** On the scripted radio that rejects the request. *)
Lemma connect_rejection_returns_witness :
  ∃ log, (connect false esp8266_network (example_config 2 5)
            (start stub_rejecting)).1 = Returned log.
Proof.
  assert (Hrej : existsb is_rejection
                   (trace (connect false esp8266_network (example_config 2 5)
                             (start stub_rejecting)).2) = true)
    by (vm_compute; reflexivity).
  destruct (connect_rejection_returns false esp8266_network
              (example_config 2 5) stub_rejecting Hrej)
    as (log & arg0 & rest & pre & Hr & _).
  eexists. exact Hr.
Defined.

(** C3, at its failing input: the connect request of the first attempt
    raises an [OSError] without arguments.  The handler that is to log
    the fault evaluates [e.args[0]], which raises [IndexError]: [connect]
    raises it to the caller and returns no log, where the fault was to be
    logged and the log returned. *)
Theorem connect_rejection_without_args :
  let d := mkStub true [] ("0.0.0.0", "0.0.0.0", "0.0.0.0", "0.0.0.0") 2
                  (Some (OSError [])) [] in
  let r := connect false esp8266_network (example_config 2 5) (start d) in
  r.1 = Raised IndexError ∧
  (¬ ∃ log, r.1 = Returned log) ∧
  trace r.2 = [EvIsConnected false; EvSetActive true; EvSleep 1;
               EvConnect "KTLT9000" "enter-password-here" (Some (OSError []))].
Proof.
  vm_compute. repeat split. intros [log Hlog]. discriminate Hlog.
Qed.

(** C4 as stated fails: the radio rejects the request with an [OSError]
    and [connect] returns its log instead of raising. *)
Lemma connect_rejection_not_raised :
  let r := connect false esp8266_network (example_config 2 5)
             (start stub_rejecting) in
  In (EvConnect "KTLT9000" "enter-password-here"
        (Some (OSError [VStr "network password"]))) (trace r.2) ∧
  r.1 = Returned ["WLAN 2"; "network password. Probably wrong network password"] ∧
  ¬ ∃ e, r.1 = Raised e.
Proof.
  vm_compute. repeat split; [tauto|]. intros [e He]. discriminate He.
Qed.

(** ** Status entries are not countdown entries *)

(** What [status_message] returns: the synthetic label, or what [s[5:]]
    keeps of the name of a status constant. *)
Lemma status_message_cases (ns : namespace) (code : Z) :
  status_message ns code = "ERROR " +:+ format_int code +:+ "?" ∨
  ∃ s, In (s, code) ns ∧ status_message ns code = string_drop 5 s.
Proof.
  destruct (in_dec Z.eq_dec code (List.map snd (stats ns))) as [Hi|Hn].
  - right. apply in_map_iff in Hi as ([s c] & Hc & Hi). simpl in Hc. subst c.
    destruct (foldl_put_present (stats ns) ∅ code s Hi)
      as (l1 & s' & l2 & Hl & _ & Hlk).
    exists s'. split.
    + apply (in_stats ns s' code). rewrite Hl. apply in_or_app. right. now left.
    + unfold status_message. rewrite build_unfold, Hlk. reflexivity.
  - left. unfold status_message. rewrite build_unfold, foldl_put_absent.
    + now rewrite lookup_empty.
    + intros s Hs. apply Hn. apply in_map_iff. now exists (s, code).
Qed.

Lemma identifier_bytes_drop n : ∀ s,
  identifier s = true → identifier (bytes_drop n s) = true.
Proof.
  induction n as [|n IH]; intros s Hs; [exact Hs|].
  destruct s as [|c s]; [reflexivity|].
  unfold identifier in Hs. cbn in Hs. apply andb_true_iff in Hs as [_ Hs].
  cbn [bytes_drop]. now apply IH.
Qed.

Lemma identifier_drop n : ∀ s,
  identifier s = true → identifier (string_drop n s) = true.
Proof.
  induction n as [|n IH]; intros s Hs; [exact Hs|].
  destruct s as [|c s]; [reflexivity|].
  unfold identifier in Hs. cbn in Hs. apply andb_true_iff in Hs as [_ Hs].
  cbn [string_drop]. apply IH. now apply identifier_bytes_drop.
Qed.

Lemma status_message_not_countdown (ns : namespace) (code : Z) :
  identifiers ns → is_countdown_entry (status_message ns code) = false.
Proof.
  intros Hid.
  destruct (status_message_cases ns code) as [->|(s & Hin & ->)].
  - reflexivity.
  - unfold is_countdown_entry.
    destruct (String.prefix "WLAN " (string_drop 5 s)) eqn:Hp; [|reflexivity].
    apply prefix_drop in Hp.
    pose proof (identifier_drop 5 s (Hid s code Hin)) as Hident.
    rewrite Hp in Hident. discriminate Hident.
Qed.

(** ** A radio that never associates *)

Section NeverConnects.
Context {D : Type} `{Platform D}.
Variable DEBUG : bool.
Variable network : namespace.

(** The states of a radio that never reports connected and takes
    every connect request. *)
Variable Inv : D → Prop.
Hypothesis never_connected :
  ∀ d, Inv d → (wlan_isconnected d).1 = false ∧ Inv (wlan_isconnected d).2.
Hypothesis never_faults :
  ∀ s p d, Inv d → (wlan_connect s p d).1 = None ∧ Inv (wlan_connect s p d).2.
Hypothesis Inv_set_active : ∀ b d, Inv d → Inv (wlan_set_active b d).
Hypothesis Inv_sleep : ∀ n d, Inv d → Inv (time_sleep n d).
Hypothesis Inv_status : ∀ d, Inv d → Inv (wlan_status d).2.

(** The inner loop polls once for each of its values and falls
    through. *)
Lemma wait_loop_never ls : ∀ out (w : World D),
  Inv (radio w) →
  let r := wait_loop DEBUG ls out w in
  r.1 = Fallthrough (out ++ wait_entries ls) ∧ Inv (radio r.2) ∧
  count is_poll (trace r.2) = (count is_poll (trace w) + length ls)%nat.
Proof.
  induction ls as [|l ls IH]; intros out w Hw; cbv zeta.
  - cbn. rewrite app_nil_r. repeat split; [done | lia].
  - destruct (wait_loop DEBUG (l :: ls) out w) as [f w'] eqn:Er.
    cbn [fst snd]. revert Er.
    cbn [wait_loop]. unfold mbind at 1. unfold M_bind at 1.
    unfold isconnected.
    destruct (never_connected _ Hw) as [Hc Hi].
    destruct (wlan_isconnected (radio w)) as [c d1]. cbn [fst snd] in *.
    subst c. unfold wait_entries. cbn [List.filter].
    destruct (1 <? l).
    + unfold mbind, M_bind. rewrite debug_print_run. unfold sleep, emit.
      cbn [radio trace].
      match goal with
      | |- context [wait_loop _ ls ?o ?w0] =>
          destruct (IH o w0) as (Hr & Hi' & Hp);
            [cbn [radio]; now apply Inv_sleep|];
            destruct (wait_loop DEBUG ls o w0) as [f2 w2]
      end.
      cbn [fst snd trace] in *. subst f2. intros [= <- <-].
      split; [|split; [exact Hi'|]].
      * cbn [List.map]. now rewrite <- app_assoc.
      * rewrite Hp. unfold count. rewrite !List.filter_app, !length_app.
        unfold debug_events. destruct DEBUG; cbn; lia.
    + match goal with
      | |- context [wait_loop _ ls ?o ?w0] =>
          destruct (IH o w0) as (Hr & Hi' & Hp); [exact Hi|];
            destruct (wait_loop DEBUG ls o w0) as [f2 w2]
      end.
      cbn [fst snd trace] in *. subst f2. intros [= <- <-].
      split; [reflexivity|]. split; [exact Hi'|].
      rewrite Hp. unfold count. rewrite !List.filter_app, !length_app.
      cbn. lia.
Qed.

(** An attempt polls three times, logs the status and falls through
    to the next attempt. *)
Lemma attempt_never (self : Wireless) (a : Z) out (w : World D) :
  Inv (radio w) →
  let r := attempt DEBUG network self a out w in
  ∃ code, r.1 = Fallthrough (out ++ attempt_entries network self (a, code)) ∧
          Inv (radio r.2) ∧
          count is_poll (trace r.2) = (count is_poll (trace w) + 3)%nat.
Proof.
  intros Hw. cbv zeta.
  destruct (attempt DEBUG network self a out w) as [f w'] eqn:Er.
  cbn [fst snd]. revert Er.
  unfold attempt. unfold mbind at 1. unfold M_bind at 1.
  rewrite debug_print_run.
  unfold mbind at 1. unfold M_bind at 1. unfold wlan_connect_call.
  cbn [radio trace].
  destruct (never_faults (_ssid self) (_password self) _ Hw) as [Hc Hi].
  destruct (wlan_connect (_ssid self) (_password self) (radio w))
    as [r d1]. cbn [fst snd] in *. subst r.
  unfold mbind at 1. unfold M_bind at 1. unfold sleep at 1. unfold emit.
  cbn [radio trace].
  unfold mbind at 1. unfold M_bind at 1.
  match goal with
  | |- context [wait_loop _ ?ls ?o ?w0] =>
      destruct (wait_loop_never ls o w0) as (Hr & Hi' & Hp);
        [cbn [radio]; now apply Inv_sleep|];
        destruct (wait_loop DEBUG ls o w0) as [f2 w2]
  end.
  cbn [fst snd trace] in *. subst f2.
  unfold_calls.
  pose proof (Inv_status _ Hi') as Hi4.
  name_call (wlan_status (radio w2)) code d4 E4.
  assert (Hcount : count is_poll (trace w2) = (count is_poll (trace w) + 3)%nat).
  { rewrite Hp. unfold count. rewrite !List.filter_app, !length_app.
    unfold debug_events. destruct DEBUG; cbn; lia. }
  unfold count in *.
  destruct DEBUG.
  - pose proof (Inv_status _ Hi4) as Hi5.
    name_call (wlan_status d4) code' d5 E5.
    destruct (1 <? a); cbn [fst snd trace radio]; intros [= <- <-];
      exists code; unfold attempt_entries; cbn [fst snd radio trace];
      rewrite <- !app_assoc;
      (split; [reflexivity|]); (split; [auto|]);
      rewrite !List.filter_app, !length_app, Hcount; cbn; lia.
  - destruct (1 <? a); cbn [fst snd trace radio]; intros [= <- <-];
      exists code; unfold attempt_entries; cbn [fst snd radio trace];
      rewrite <- !app_assoc;
      (split; [reflexivity|]); (split; [auto|]);
      rewrite ?List.filter_app, ?length_app, Hcount; cbn; lia.
Qed.

(** The loop over the attempts makes them all and falls through. *)
Lemma attempts_loop_never (self : Wireless) as_ : ∀ out (w : World D),
  Inv (radio w) →
  let r := attempts_loop DEBUG network self as_ out w in
  ∃ codes, length codes = length as_ ∧
    r.1 = Fallthrough
            (out ++ concat (List.map (attempt_entries network self)
                              (combine as_ codes))) ∧
    Inv (radio r.2) ∧
    count is_poll (trace r.2)
    = (count is_poll (trace w) + 3 * length as_)%nat.
Proof.
  induction as_ as [|a as_ IH]; intros out w Hw; cbv zeta.
  - exists []. cbn. rewrite app_nil_r. repeat split; [done | lia].
  - cbn [attempts_loop]. unfold mbind, M_bind.
    destruct (attempt_never self a out w Hw) as (code & Hr & Hi & Hp).
    destruct (attempt DEBUG network self a out w) as [f w1].
    cbn [fst snd] in *. subst f.
    destruct (IH (out ++ attempt_entries network self (a, code)) w1 Hi)
      as (codes & Hlen & Hr' & Hi' & Hp').
    exists (code :: codes). cbn [length combine List.map concat].
    split; [now rewrite Hlen|]. split; [now rewrite Hr', <- app_assoc|].
    split; [exact Hi'|]. rewrite Hp', Hp. lia.
Qed.

(** [connect] on such a radio: every attempt is made, each logs its
    countdown entry, its waits and the status, and the log ends with
    the entry of failure. *)
Lemma connect_never (self : Wireless) (d : D) :
  Inv d →
  let r := connect DEBUG network self (start d) in
  ∃ codes, length codes = length (range_down (_attempts self) 0) ∧
    r.1 = Returned
            (concat (List.map (attempt_entries network self)
                       (combine (range_down (_attempts self) 0) codes))
             ++ ["WLAN connection failed"]) ∧
    Inv (radio r.2) ∧
    count is_poll (trace r.2)
    = (1 + 3 * length (range_down (_attempts self) 0))%nat.
Proof.
  intros Hd. cbv zeta.
  destruct (connect DEBUG network self (start d)) as [o w'] eqn:Er.
  cbn [fst snd]. revert Er.
  unfold connect. unfold mbind at 1. unfold M_bind at 1.
  unfold isconnected, start. cbn [radio trace].
  destruct (never_connected _ Hd) as [Hc Hi].
  destruct (wlan_isconnected d) as [c d1]. cbn [fst snd] in *. subst c.
  unfold mbind at 1. unfold M_bind at 1. unfold set_active, emit.
  unfold mbind at 1. unfold M_bind at 1. unfold sleep, emit.
  cbn [radio trace].
  unfold mbind, M_bind.
  match goal with
  | |- context [attempts_loop _ _ _ ?l ?o ?w0] =>
      destruct (attempts_loop_never self l o w0)
        as (codes & Hlen & Hr & Hi' & Hp);
        [cbn [radio]; now apply Inv_sleep, Inv_set_active|];
        destruct (attempts_loop DEBUG network self l o w0) as [f w2]
  end.
  cbn [fst snd] in *. subst f. intros [= <- <-].
  exists codes. split; [exact Hlen|]. split; [reflexivity|].
  split; [exact Hi'|]. rewrite Hp. cbn. lia.
Qed.

(** C5. On a radio that never reports connected and never faults,
    with 2 attempts and 1 wait loop configured, the log of [connect] is
    the countdown entry "WLAN 2", a status, the countdown entry
    "WLAN 1", a status, and last "WLAN connection failed"; the countdown
    entries are these two, in this order; and the radio does not report
    connected afterwards. *)
Theorem connect_exhaustion_scenario (self : Wireless) (d : D) :
  Inv d →
  _attempts self = 2 →
  _wait_loops self = 1 →
  let r := connect DEBUG network self (start d) in
  (∃ code2 code1,
     r.1 = Returned ["WLAN 2"; status_message network code2;
                     "WLAN 1"; status_message network code1;
                     "WLAN connection failed"]) ∧
  List.last (log_of r.1) "" = "WLAN connection failed" ∧
  (identifiers network →
     List.filter is_countdown_entry (log_of r.1) = ["WLAN 2"; "WLAN 1"]) ∧
  (wlan_isconnected (radio r.2)).1 = false.
Proof.
  intros Hd Ha Hw. cbv zeta.
  destruct (connect_never self d Hd) as (codes & Hlen & Hr & Hi & _).
  rewrite Ha in Hlen, Hr.
  change (range_down 2 0) with [2; 1] in Hlen, Hr.
  destruct codes as [|code2 [|code1 [|? ?]]]; try discriminate Hlen.
  unfold attempt_entries, wait_values, wait_entries in Hr.
  rewrite Hw in Hr. cbn in Hr. rewrite Hr.
  split; [eauto|]. split; [reflexivity|].
  split; [|now apply never_connected].
  intros Hid. cbn [log_of fst List.filter].
  rewrite !status_message_not_countdown by exact Hid. reflexivity.
Qed.

End NeverConnects.

(** The scenario on the scripted radio: its script of answers is empty
    and it takes the connect request. *)
Lemma connect_exhaustion_scenario_witness :
  let r := connect false esp8266_network (example_config 2 1)
             (start stub_never) in
  (∃ code2 code1,
     r.1 = Returned ["WLAN 2"; status_message esp8266_network code2;
                     "WLAN 1"; status_message esp8266_network code1;
                     "WLAN connection failed"]) ∧
  List.filter is_countdown_entry (log_of r.1) = ["WLAN 2"; "WLAN 1"] ∧
  (wlan_isconnected (radio r.2)).1 = false.
Proof.
  assert (Hid : identifiers esp8266_network).
  { intros s v Hin. simpl in Hin.
    repeat (destruct Hin as [[= <- <-]|Hin]; [reflexivity|]).
    destruct Hin. }
  pose (Inv := λ d : Stub, stub_link d = [] ∧ stub_reject d = None).
  assert (H1 : ∀ d, Inv d →
            (wlan_isconnected d).1 = false ∧ Inv (wlan_isconnected d).2).
  { intros [p l c s r a] [Hl Hr]; simpl in Hl, Hr; subst;
    split; [reflexivity | split; reflexivity]. }
  assert (H2 : ∀ s p d, Inv d →
            (wlan_connect s p d).1 = None ∧ Inv (wlan_connect s p d).2).
  { intros s p [pw l c st r a] [Hl Hr]; simpl in Hl, Hr; subst;
    split; [reflexivity | split; reflexivity]. }
  assert (H3 : ∀ b d, Inv d → Inv (wlan_set_active b d)).
  { intros b [pw l c st r a] [Hl Hr]; simpl in Hl, Hr; subst;
    split; reflexivity. }
  assert (H4 : ∀ n d, Inv d → Inv (time_sleep n d)).
  { intros n d Hd. exact Hd. }
  assert (H5 : ∀ d, Inv d → Inv (wlan_status d).2).
  { intros d Hd. exact Hd. }
  destruct (connect_exhaustion_scenario false esp8266_network Inv
              H1 H2 H3 H4 H5 (example_config 2 1) stub_never
              (conj eq_refl eq_refl) eq_refl eq_refl)
    as (Hlog & _ & Hcount & Hc).
  split; [exact Hlog|]. split; [exact (Hcount Hid) | exact Hc].
Defined.

(** ** The inner wait loop *)

(** The inner loop does not look at what was done before it: run after
    any trace, it does what it does from a fresh one, and appends. *)
Lemma wait_loop_frame {D} `{Platform D} (DEBUG : bool) ls :
  ∀ out (w : World D),
    wait_loop DEBUG ls out w
    = let r := wait_loop DEBUG ls out (start (radio w)) in
      (r.1, mkWorld (radio r.2) (trace w ++ trace r.2)).
Proof.
  induction ls as [|l ls IH]; intros out w; cbv zeta.
  - destruct w as [d tr]. cbn. now rewrite app_nil_r.
  - cbn [wait_loop]. unfold_calls.
    name_call (wlan_isconnected (radio w)) c d1 E1.
    destruct c.
    + name_call (wlan_ifconfig d1) cfg d2 E2. now rewrite <- app_assoc.
    + destruct (1 <? l); [destruct DEBUG|]; cbn [radio trace fst snd];
        match goal with
        | |- wait_loop _ ls ?o ?w1 = ((wait_loop _ ls ?o ?w2).1, _) =>
            rewrite (IH o w1), (IH o w2)
        end;
        cbn [radio trace fst snd app]; rewrite <- ?app_assoc; reflexivity.
Qed.




(** C1, at its failing input: with 5 wait loops configured and a radio
    that never reports connected, the attempt checks connectivity 3
    times, not 5, and logs one wait entry and pauses 7 once, not between
    every two consecutive checks. *)
Theorem attempt_polls_ignore_wait_loops :
  let self := example_config 1 5 in
  let r := attempt false esp8266_network self 1 [] (start stub_never) in
  _wait_loops self = 5 ∧
  count is_connected_poll (trace r.2) = 0%nat ∧
  count is_poll (trace r.2) = 3%nat ∧
  count is_wait_pause (trace r.2) = 1%nat ∧
  trace r.2 = [EvConnect "KTLT9000" "enter-password-here" None; EvSleep 1;
               EvIsConnected false; EvSleep 7;
               EvIsConnected false; EvIsConnected false; EvStatus 3] ∧
  r.1 = Fallthrough ["WLAN 1"; " Wait 5"; "NO_AP_FOUND"].
Proof.
  vm_compute. repeat split.
Qed.

(** * Further properties *)

(** ** Construction and configuration *)

(** X1. [__init__] with values within the bounds returns an instance that
    holds exactly these values, after powering the radio down and then
    up, which are the only two calls it makes. *)
Theorem init_accepts {D} `{Platform D} (s p : string) (a wl : Z) (d : D) :
  2 ≤ len s ≤ 32 → 1 ≤ a ≤ 9 → 1 ≤ wl ≤ 9 →
  init (VStr s) (VStr p) (VInt a) (VInt wl) (start d)
  = (Returned (mkWireless s p a wl),
     mkWorld (wlan_set_active true (wlan_set_active false d))
             [EvSetActive false; EvSetActive true]).
Proof.
  intros Hs Ha Hwl. unfold init, ssid_ok, password_ok, count_ok.
  replace (2 <=? len s) with true by (symmetry; apply Z.leb_le; lia).
  replace (len s <=? 32) with true by (symmetry; apply Z.leb_le; lia).
  replace (1 <=? a) with true by (symmetry; apply Z.leb_le; lia).
  replace (a <=? 9) with true by (symmetry; apply Z.leb_le; lia).
  replace (1 <=? wl) with true by (symmetry; apply Z.leb_le; lia).
  replace (wl <=? 9) with true by (symmetry; apply Z.leb_le; lia).
  reflexivity.
Qed.

Lemma init_accepts_witness :
  (init (VStr "KTLT9000") (VStr "") (VInt 5) (VInt 5) (start stub_off)).1
  = Returned (mkWireless "KTLT9000" "" 5 5) ∧
  (init (VStr "łłłłłłłłłłłłłłłłł") (VStr "") (VInt 5) (VInt 5) (start stub_off)).1
  = Returned (mkWireless "łłłłłłłłłłłłłłłłł" "" 5 5).
Proof.
  rewrite (init_accepts "KTLT9000" "" 5 5 stub_off)
    by (vm_compute; split; discriminate).
  rewrite (init_accepts "łłłłłłłłłłłłłłłłł" "" 5 5 stub_off)
    by (vm_compute; split; discriminate).
  split; reflexivity.
Defined.

(** X2. [__init__] with any argument of the wrong type or out of its bounds
    raises an assertion error before it touches the radio: no call is
    made and the world is as it was. *)
Theorem init_rejects {D} `{Platform D} (v1 v2 v3 v4 : PyVal) (w : World D) :
  ssid_ok v1 && password_ok v2 && count_ok v3 && count_ok v4 = false →
  ∃ msg, init v1 v2 v3 v4 w = (Raised (AssertionError msg), w).
Proof.
  intros Hbad. unfold init.
  destruct (ssid_ok v1); [|eexists; reflexivity].
  destruct (password_ok v2); [|eexists; reflexivity].
  destruct (count_ok v3); [|eexists; reflexivity].
  destruct (count_ok v4); [discriminate Hbad|eexists; reflexivity].
Qed.

(** A name of one character, of one or of two bytes; a count given as
    [True]. *)
Lemma init_rejects_witness :
  (∃ msg, init (VStr "K") (VStr "pw") (VInt 5) (VInt 5) (start stub_off)
          = (Raised (AssertionError msg), start stub_off)) ∧
  (∃ msg, init (VStr "ł") (VStr "pw") (VInt 5) (VInt 5) (start stub_off)
          = (Raised (AssertionError msg), start stub_off)) ∧
  (∃ msg, init (VStr "KTLT9000") (VStr "pw") (VBool true) (VInt 5)
            (start stub_off)
          = (Raised (AssertionError msg), start stub_off)).
Proof.
  split; [|split].
  - apply (init_rejects (VStr "K") (VStr "pw") (VInt 5) (VInt 5)). reflexivity.
  - apply (init_rejects (VStr "ł") (VStr "pw") (VInt 5) (VInt 5)). reflexivity.
  - apply (init_rejects (VStr "KTLT9000") (VStr "pw") (VBool true) (VInt 5)).
    reflexivity.
Defined.

(** X3. A setter given a value within its bounds returns normally, the getter
    of its field then returns that value, and the other fields are as
    they were. *)
Theorem setters_store (self : Wireless) :
  (∀ s, 2 ≤ len s ≤ 32 →
     let r := Setters.ssid (VStr s) self in
     r.1 = Returned tt ∧ Getters.ssid r.2 = VStr s ∧
     _password r.2 = _password self ∧ _attempts r.2 = _attempts self ∧
     _wait_loops r.2 = _wait_loops self) ∧
  (∀ n, 1 ≤ n ≤ 9 →
     let r := Setters.attempts (VInt n) self in
     r.1 = Returned tt ∧ Getters.attempts r.2 = VInt n ∧
     _ssid r.2 = _ssid self ∧ _password r.2 = _password self ∧
     _wait_loops r.2 = _wait_loops self) ∧
  (∀ n, 1 ≤ n ≤ 9 →
     let r := Setters.wait_loops (VInt n) self in
     r.1 = Returned tt ∧ Getters.wait_loops r.2 = VInt n ∧
     _ssid r.2 = _ssid self ∧ _password r.2 = _password self ∧
     _attempts r.2 = _attempts self).
Proof.
  split; [|split].
  - intros s Hs; cbv zeta; unfold Setters.ssid, ssid_ok.
    replace (2 <=? len s) with true by (symmetry; apply Z.leb_le; lia).
    replace (len s <=? 32) with true by (symmetry; apply Z.leb_le; lia).
    repeat split.
  - intros n Hn; cbv zeta; unfold Setters.attempts, count_ok.
    replace (1 <=? n) with true by (symmetry; apply Z.leb_le; lia).
    replace (n <=? 9) with true by (symmetry; apply Z.leb_le; lia).
    repeat split.
  - intros n Hn; cbv zeta; unfold Setters.wait_loops, count_ok.
    replace (1 <=? n) with true by (symmetry; apply Z.leb_le; lia).
    replace (n <=? 9) with true by (symmetry; apply Z.leb_le; lia).
    repeat split.
Qed.

Lemma setters_store_witness :
  Getters.ssid (Setters.ssid (VStr "ab") (example_config 5 5)).2 = VStr "ab" ∧
  Getters.ssid (Setters.ssid (VStr "łłłłłłłłłłłłłłłłł") (example_config 5 5)).2
  = VStr "łłłłłłłłłłłłłłłłł" ∧
  Getters.attempts (Setters.attempts (VInt 9) (example_config 5 5)).2 = VInt 9 ∧
  Getters.wait_loops (Setters.wait_loops (VInt 1) (example_config 5 5)).2
  = VInt 1.
Proof.
  destruct (setters_store (example_config 5 5)) as (Hs & Ha & Hw).
  split; [apply (Hs "ab"); vm_compute; split; discriminate|].
  split; [apply (Hs "łłłłłłłłłłłłłłłłł"); vm_compute; split; discriminate|].
  split; [apply (Ha 9); lia | apply (Hw 1); lia].
Defined.

(** X4. The setters check the exact type: [attempts] and [wait_loops] take an
    [int] only, so [True], [None] and strings are rejected though
    [True == 1]; [ssid] and [password] take a [str] only.  A rejected
    value leaves the instance as it was. *)
Theorem setters_check_type (self : Wireless) (v : PyVal) :
  ((∀ n, v ≠ VInt n) →
     (∃ msg, Setters.attempts v self = (Raised (AssertionError msg), self)) ∧
     (∃ msg, Setters.wait_loops v self = (Raised (AssertionError msg), self))) ∧
  ((∀ s, v ≠ VStr s) →
     (∃ msg, Setters.ssid v self = (Raised (AssertionError msg), self)) ∧
     (∃ msg, Setters.password v self = (Raised (AssertionError msg), self))).
Proof.
  split; intros Hv; destruct v; try (split; eexists; reflexivity).
  - now destruct (Hv z).
  - now destruct (Hv s).
Qed.

Lemma setters_check_type_witness :
  (∃ msg, Setters.attempts (VBool true) (example_config 5 5)
          = (Raised (AssertionError msg), example_config 5 5)) ∧
  (∃ msg, Setters.password (VInt 1234) (example_config 5 5)
          = (Raised (AssertionError msg), example_config 5 5)).
Proof.
  destruct (setters_check_type (example_config 5 5) (VBool true)) as [Hi _].
  destruct (setters_check_type (example_config 5 5) (VInt 1234)) as [_ Hs].
  split.
  - apply Hi. discriminate.
  - apply Hs. discriminate.
Defined.

(** X5. The bounds are an invariant of an instance: what [__init__] returns
    is within them, and whatever value a setter is given, accepted or
    rejected, the instance is within them afterwards. *)
Theorem valid_invariant {D} `{Platform D} :
  (∀ v1 v2 v3 v4 (w : World D) self,
     (init v1 v2 v3 v4 w).1 = Returned self → valid self) ∧
  (∀ self v, valid self →
     valid (Setters.ssid v self).2 ∧ valid (Setters.password v self).2 ∧
     valid (Setters.attempts v self).2 ∧ valid (Setters.wait_loops v self).2).
Proof.
  assert (Hs : ∀ v, ssid_ok v = true → 2 ≤ len (str_of v) ≤ 32).
  { intros [| | |s] Hv; try discriminate Hv. cbn in *.
    apply andb_true_iff in Hv as [H1 H2]. apply Z.leb_le in H1, H2. lia. }
  assert (Hc : ∀ v, count_ok v = true → 1 ≤ int_of v ≤ 9).
  { intros [| |n|] Hv; try discriminate Hv. cbn in *.
    apply andb_true_iff in Hv as [H1 H2]. apply Z.leb_le in H1, H2. lia. }
  split.
  - intros v1 v2 v3 v4 w self. unfold init.
    destruct (ssid_ok v1) eqn:E1; [|discriminate].
    destruct (password_ok v2) eqn:E2; [|discriminate].
    destruct (count_ok v3) eqn:E3; [|discriminate].
    destruct (count_ok v4) eqn:E4; [|discriminate].
    cbn. intros [= <-]. unfold valid. cbn. auto.
  - intros self v (H1 & H2 & H3).
    unfold Setters.ssid, Setters.password, Setters.attempts,
      Setters.wait_loops, valid.
    destruct (ssid_ok v) eqn:E1; destruct (password_ok v) eqn:E2;
      destruct (count_ok v) eqn:E3; cbn; auto 10.
Qed.

Lemma valid_invariant_witness :
  valid (Setters.attempts (VInt 12) (example_config 5 5)).2 ∧
  valid (Setters.attempts (VInt 3) (example_config 5 5)).2 ∧
  valid (Setters.ssid (VStr "łłłłłłłłłłłłłłłłł") (example_config 5 5)).2 ∧
  _ssid (Setters.ssid (VStr "łłłłłłłłłłłłłłłłł") (example_config 5 5)).2 = "łłłłłłłłłłłłłłłłł".
Proof.
  assert (Hv : valid (example_config 5 5)) by (vm_compute; intuition discriminate).
  destruct (@valid_invariant Stub stub_platform) as [_ Hset].
  split; [|split; [|split]].
  - exact (proj1 (proj2 (proj2 (Hset _ (VInt 12) Hv)))).
  - exact (proj1 (proj2 (proj2 (Hset _ (VInt 3) Hv)))).
  - exact (proj1 (Hset _ (VStr "łłłłłłłłłłłłłłłłł") Hv)).
  - reflexivity.
Defined.

(** ** Disconnecting *)

Section Disconnect.
Context {D : Type} `{Platform D}.

(** Whether the radio is associated, as its driver keeps it:
    [isconnected()] reports it and does not change it, [disconnect()]
    ends it, and powering down does not bring it back. *)
Variable linked : D → bool.
Hypothesis isconnected_reports : ∀ d, (wlan_isconnected d).1 = linked d.
Hypothesis isconnected_keeps : ∀ d, linked (wlan_isconnected d).2 = linked d.
Hypothesis disconnect_unlinks : ∀ d, linked (wlan_disconnect d) = false.
Hypothesis power_down_keeps :
  ∀ d, linked d = false → linked (wlan_set_active false d) = false.

(** X6. [disconnect] leaves the radio not associated.  On an associated
    radio it asks for the disconnection once and then powers the radio
    down; on a radio that is not associated it only makes the
    connectivity query.  So a second [disconnect] right after the first
    makes the query and nothing else. *)
Theorem disconnect_idempotent (d : D) :
  let r := disconnect (start d) in
  let r' := disconnect (start (radio r.2)) in
  linked (radio r.2) = false ∧
  trace r.2 = (if linked d
               then [EvIsConnected true; EvDisconnect; EvSetActive false]
               else [EvIsConnected false]) ∧
  trace r'.2 = [EvIsConnected false] ∧
  linked (radio r'.2) = false.
Proof.
  assert (Hone : ∀ d0,
    let r := disconnect (start d0) in
    linked (radio r.2) = false ∧
    trace r.2 = (if linked d0
                 then [EvIsConnected true; EvDisconnect; EvSetActive false]
                 else [EvIsConnected false])).
  { intros d0. cbv zeta. unfold disconnect. unfold_calls.
    pose proof (isconnected_reports d0) as Hrep.
    pose proof (isconnected_keeps d0) as Hkeep.
    name_call (wlan_isconnected d0) c d1 E1. subst c.
    destruct (linked d0); cbn [fst snd radio trace app].
    - split; [|reflexivity]. apply power_down_keeps, disconnect_unlinks.
    - split; [exact Hkeep | reflexivity]. }
  cbv zeta. destruct (Hone d) as [Hl Ht].
  destruct (Hone (radio (disconnect (start d)).2)) as [Hl' Ht'].
  rewrite Hl in Ht'. auto.
Qed.

End Disconnect.

(** On the radio with a steady link, found associated. *)
Lemma disconnect_idempotent_witness :
  let r := disconnect (start (mkSteady true true)) in
  trace r.2 = [EvIsConnected true; EvDisconnect; EvSetActive false] ∧
  trace (disconnect (start (radio r.2))).2 = [EvIsConnected false].
Proof.
  destruct (@disconnect_idempotent Steady steady_platform steady_linked
              (λ d, eq_refl) (λ d, eq_refl) (λ d, eq_refl)
              (λ d (Hd : steady_linked d = false),
                 f_equal (λ b, b && false) Hd)
              (mkSteady true true)) as (_ & Ht & Ht' & _).
  split; [exact Ht | exact Ht'].
Defined.

(** ** The scan is made on a powered radio *)

Section ScanPowered.
Context {D : Type} `{Platform D}.

Variable powered : D → bool.
Hypothesis active_reports : ∀ d, (wlan_active d).1 = powered d.
Hypothesis active_keeps : ∀ d, powered (wlan_active d).2 = powered d.
Hypothesis set_active_sets : ∀ b d, powered (wlan_set_active b d) = b.
Hypothesis sleep_keeps : ∀ n d, powered (time_sleep n d) = powered d.

(** X7. Whatever power state [available_wlans] finds the radio in, the state
    in which it asks for the scan is a powered one, it asks for one scan
    only, and what it returns is what that scan gave. *)
Theorem available_wlans_scans_powered (d : D) :
  let r := available_wlans (start d) in
  ∃ d_scan, powered d_scan = true ∧
            r.1 = (wlan_scan d_scan).1 ∧
            count (λ e, match e with EvScan _ => true | _ => false end)
                  (trace r.2) = 1%nat ∧
            In (EvScan (wlan_scan d_scan).1) (trace r.2).
Proof.
  cbv zeta. unfold available_wlans. unfold_calls.
  pose proof (active_reports d) as Hrep.
  pose proof (active_keeps d) as Hkeep.
  name_call (wlan_active d) wa d1 E1. subst wa.
  destruct (powered d) eqn:Hp; cbn [negb].
  - exists d1. split; [exact Hkeep|].
    name_call (wlan_scan d1) r d2 E2.
    destruct r as [aps|e]; cbn [radio trace fst snd app];
      repeat split; cbn; tauto.
  - exists (time_sleep 1 (wlan_set_active true d1)).
    split; [now rewrite sleep_keeps, set_active_sets|].
    name_call (wlan_scan (time_sleep 1 (wlan_set_active true d1))) r d2 E2.
    destruct r as [aps|e]; cbn [radio trace fst snd app];
      repeat split; cbn; tauto.
Qed.

End ScanPowered.

Lemma available_wlans_scans_powered_witness :
  ∃ d_scan, stub_power d_scan = true ∧
            (available_wlans (start stub_off)).1 = (wlan_scan d_scan).1.
Proof.
  destruct (@available_wlans_scans_powered Stub stub_platform stub_power
              (λ d, eq_refl) (λ d, eq_refl) (λ b d, eq_refl)
              (λ n d, eq_refl) stub_off) as (d_scan & Hp & Hr & _).
  exists d_scan. split; [exact Hp | exact Hr].
Defined.

(** ** More on the status table *)

(** In a list of constants with distinct codes, a code has one name. *)
Lemma distinct_codes_one_name (l : namespace) (s1 s2 : string) (code : Z) :
  NoDup (List.map snd l) → In (s1, code) l → In (s2, code) l → s1 = s2.
Proof.
  induction l as [|[s v] l IH]; intros Hnd H1 H2; [destruct H1|].
  cbn in Hnd. apply NoDup_cons in Hnd as [Hnot Hnd].
  assert (Hin : ∀ s', In (s', v) l → False).
  { intros s' Hs'. apply Hnot. apply list_elem_of_In.
    apply in_map_iff. now exists (s', v). }
  destruct H1 as [E1|H1]; destruct H2 as [E2|H2].
  - congruence.
  - exfalso. inversion E1; subst. eauto.
  - exfalso. inversion E2; subst. eauto.
  - now apply IH.
Qed.

(** X8. The table does not depend on the order in which [dir(network)] lists
    the names, when no two status constants have the same code: two
    namespaces that are permutations of each other give every code the
    same message. *)
Theorem status_message_order_independent (ns ns' : namespace) (code : Z) :
  Permutation ns ns' →
  NoDup (List.map snd (stats ns)) →
  status_message ns code = status_message ns' code.
Proof.
  intros Hperm Hnd.
  assert (Hin : ∀ s, In (s, code) (stats ns) ↔ In (s, code) (stats ns')).
  { intros s. rewrite !in_stats. split; intros [Hi Hc]; split; auto.
    - apply list_elem_of_In. rewrite <- Hperm. now apply list_elem_of_In.
    - apply list_elem_of_In. rewrite Hperm. now apply list_elem_of_In. }
  unfold status_message. rewrite !build_unfold.
  destruct (in_dec Z.eq_dec code (List.map snd (stats ns))) as [Hi|Hn].
  - apply in_map_iff in Hi as ([s c] & Hc & Hi). simpl in Hc. subst c.
    destruct (foldl_put_present (stats ns) ∅ code s Hi)
      as (l1 & s1 & l2 & Hl & _ & ->).
    destruct (foldl_put_present (stats ns') ∅ code s (proj1 (Hin s) Hi))
      as (l1' & s2 & l2' & Hl' & _ & ->).
    assert (H1 : In (s1, code) (stats ns))
      by (rewrite Hl; apply in_or_app; right; now left).
    assert (H2 : In (s2, code) (stats ns))
      by (apply Hin; rewrite Hl'; apply in_or_app; right; now left).
    now rewrite (distinct_codes_one_name _ _ _ _ Hnd H1 H2).
  - rewrite !foldl_put_absent; [reflexivity| |].
    + intros s Hs. apply Hn. apply in_map_iff. exists (s, code).
      split; [reflexivity|]. now apply Hin.
    + intros s Hs. apply Hn. apply in_map_iff. now exists (s, code).
Qed.

Lemma status_message_order_independent_witness :
  status_message esp8266_network 3 = status_message (rev esp8266_network) 3.
Proof.
  apply status_message_order_independent.
  - apply Permutation_rev.
  - apply (bool_decide_unpack _). vm_compute. exact I.
Defined.

(** X9. When several status constants have the same code, the one listed
    last gives the message: a status constant at the end of the namespace
    decides the message of its code. *)
Theorem status_message_last_wins (ns : namespace) (s : string) (code : Z) :
  contains "STAT_" s = true →
  status_message (ns ++ [(s, code)]) code = string_drop 5 s.
Proof.
  intros Hc. unfold status_message, build, stats.
  rewrite List.filter_app. cbn [List.filter]. rewrite Hc.
  rewrite foldl_app. cbn [foldl]. now rewrite lookup_insert_eq.
Qed.

Lemma status_message_last_wins_witness :
  status_message (esp8266_network ++ [("STAT_TIMEOUT", 2)]) 2 = "TIMEOUT".
Proof.
  exact (status_message_last_wins esp8266_network "STAT_TIMEOUT" 2 eq_refl).
Defined.

(** ** What [connect] does, for every radio *)

Lemma count_app (p : Event → bool) (l1 l2 : list Event) :
  count p (l1 ++ l2) = (count p l1 + count p l2)%nat.
Proof. unfold count. now rewrite List.filter_app, length_app. Qed.

Lemma sleep_total_app (l1 l2 : list Event) :
  sleep_total (l1 ++ l2) = sleep_total l1 + sleep_total l2.
Proof.
  unfold sleep_total.
  induction l1 as [|e l1 IH]; [reflexivity|].
  cbn [app fold_right]. destruct e; rewrite ?IH; lia.
Qed.

Lemma measures_app DEBUG evs1 evs2 n1 p1 s1 n2 p2 s2 :
  measures DEBUG evs1 n1 p1 s1 → measures DEBUG evs2 n2 p2 s2 →
  measures DEBUG (evs1 ++ evs2) (n1 + n2) (p1 + p2) (s1 + s2).
Proof.
  intros (A1 & B1 & C1 & D1 & E1 & F1) (A2 & B2 & C2 & D2 & E2 & F2).
  unfold measures. rewrite forallb_app, !count_app, sleep_total_app, A1, A2, B1, B2.
  repeat split; try reflexivity; try lia.
  intros Hd. rewrite F1, F2 by exact Hd. reflexivity.
Qed.

(** Splits the run of an attempt into its cases: the answer to the
    connect request, to each poll, and the tests on [_l] and [_a]. *)
Ltac attempt_cases :=
  repeat first
    [ progress cbn [radio trace fst snd app]
    | match goal with
      | |- context [wlan_connect ?s ?p ?d] =>
          let r := fresh "r" in let d' := fresh "d" in
          destruct (wlan_connect s p d) as [r d'] eqn:?;
          destruct r as [[?|[|? ?]| |?]|]
      | |- context [wlan_isconnected ?d] =>
          let c := fresh "c" in let d' := fresh "d" in
          destruct (wlan_isconnected d) as [c d'] eqn:?; destruct c
      | |- context [wlan_ifconfig ?d] =>
          let c := fresh "cfg" in let d' := fresh "d" in
          destruct (wlan_ifconfig d) as [c d'] eqn:?
      | |- context [wlan_status ?d] =>
          let c := fresh "code" in let d' := fresh "d" in
          destruct (wlan_status d) as [c d'] eqn:?
      end ].

(** Finds the events before the last ones that a goal names. *)
Ltac with_pre k :=
  first
    [ exists (@nil Event); k
    | eexists [_]; k
    | eexists [_; _]; k
    | eexists [_; _; _]; k
    | eexists [_; _; _; _]; k
    | eexists [_; _; _; _; _]; k
    | eexists [_; _; _; _; _; _]; k
    | eexists [_; _; _; _; _; _; _]; k
    | eexists [_; _; _; _; _; _; _; _]; k
    | eexists [_; _; _; _; _; _; _; _; _]; k
    | eexists [_; _; _; _; _; _; _; _; _; _]; k ].

Ltac solve_measures :=
  unfold measures, count; cbn;
  repeat split; try reflexivity; try lia; try discriminate.

Ltac solve_flow_facts :=
  cbn [flow_facts app];
  first
    [ reflexivity
    | with_pre ltac:(solve [eexists; cbn [app];
                            split; [reflexivity|split; reflexivity]])
    | left; with_pre ltac:(solve [eexists; eexists; cbn [app];
                                  split; [reflexivity|split; reflexivity]])
    | right; with_pre ltac:(solve [eexists; eexists; eexists; cbn [app];
                                   split; [reflexivity|split; reflexivity]]) ].

Section Shape.
Context {D : Type} `{Platform D}.
Variable DEBUG : bool.
Variable network : namespace.

Lemma attempt_shape (self : Wireless) (a : Z) out (w : World D) :
  let r := attempt DEBUG network self a out w in
  ∃ evs, trace r.2 = trace w ++ evs ∧
         measures DEBUG evs 1 3 (attempt_sleep_bound a) ∧
         flow_facts self evs r.1.
Proof.
  cbv zeta.
  destruct (attempt DEBUG network self a out w) as [f w'] eqn:Er.
  cbn [fst snd]. revert Er.
  unfold attempt, wait_values. cbn [wait_loop].
  change (1 <? 0) with false. change (1 <? -1) with false.
  unfold_calls. unfold _WAIT_SLEEP, _ATTEMPT_SLEEP, attempt_sleep_bound.
  destruct DEBUG eqn:Edbg; destruct (1 <? _wait_loops self);
    destruct (1 <? a); attempt_cases; intros [= <- <-];
    (eexists; split; [cbn [trace]; rewrite <- ?app_assoc; reflexivity|]);
    (split; [solve_measures | solve_flow_facts]).
Qed.

Lemma attempt_sleep_bound_nonneg (a : Z) : 0 ≤ attempt_sleep_bound a.
Proof. unfold attempt_sleep_bound. destruct (1 <? a); lia. Qed.

Lemma sleep_bound_sum_nonneg (as_ : list Z) : 0 ≤ sleep_bound_sum as_.
Proof.
  induction as_ as [|a as_ IH]; [reflexivity|].
  change (sleep_bound_sum (a :: as_))
    with (attempt_sleep_bound a + sleep_bound_sum as_).
  pose proof (attempt_sleep_bound_nonneg a). lia.
Qed.

Lemma measures_weaken evs n p sl n' p' sl' :
  measures DEBUG evs n p sl → (n ≤ n')%nat → (p ≤ p')%nat → sl ≤ sl' →
  measures DEBUG evs n' p' sl'.
Proof.
  intros (A & B & C & E & F & G) Hn Hp Hs. unfold measures.
  repeat split; auto; lia.
Qed.

Lemma flow_facts_prepend (self : Wireless) evs1 evs2 f :
  existsb is_connected_poll evs1 = false →
  flow_facts self evs2 f → flow_facts self (evs1 ++ evs2) f.
Proof.
  intros H1. destruct f as [out|[log|e]]; cbn [flow_facts].
  - intros H2. now rewrite existsb_app, H1, H2.
  - intros [(pre & cfg & log' & -> & -> & Hp)|(pre & a0 & rest & log' & -> & -> & Hp)].
    + left. exists (evs1 ++ pre), cfg, log'. rewrite app_assoc.
      split; [reflexivity|]. split; [reflexivity|].
      now rewrite existsb_app, H1, Hp.
    + right. exists (evs1 ++ pre), a0, rest, log'. rewrite app_assoc.
      split; [reflexivity|]. split; [reflexivity|].
      rewrite <- app_assoc. now rewrite existsb_app, H1, Hp.
  - intros (pre & e' & -> & He & Hp). exists (evs1 ++ pre), e'.
    rewrite app_assoc. split; [reflexivity|]. split; [exact He|].
    rewrite <- app_assoc. now rewrite existsb_app, H1, Hp.
Qed.

(** What is left of the events of a loop that fell through has no
    connect request that raised. *)
Lemma attempt_fallthrough_no_raise (self : Wireless) (a : Z) out (w : World D) :
  let r := attempt DEBUG network self a out w in
  ∀ out', r.1 = Fallthrough out' →
  ∃ evs, trace r.2 = trace w ++ evs ∧ existsb is_raising_request evs = false.
Proof.
  cbv zeta.
  destruct (attempt DEBUG network self a out w) as [f w'] eqn:Er.
  cbn [fst snd]. revert Er.
  unfold attempt, wait_values. cbn [wait_loop].
  change (1 <? 0) with false. change (1 <? -1) with false.
  unfold_calls. unfold _WAIT_SLEEP, _ATTEMPT_SLEEP.
  destruct DEBUG eqn:Edbg; destruct (1 <? _wait_loops self);
    destruct (1 <? a); attempt_cases; intros [= <- <-] out' Hf;
    try discriminate Hf;
    (eexists; split; [cbn [trace]; rewrite <- ?app_assoc; reflexivity|]);
    reflexivity.
Qed.

Lemma attempts_loop_shape (self : Wireless) as_ : ∀ out (w : World D),
  let r := attempts_loop DEBUG network self as_ out w in
  ∃ evs, trace r.2 = trace w ++ evs ∧
         measures DEBUG evs (length as_) (3 * length as_)
                  (sleep_bound_sum as_) ∧
         flow_facts self evs r.1 ∧
         (∀ out', r.1 = Fallthrough out' →
                  existsb is_raising_request evs = false).
Proof.
  induction as_ as [|a as_ IH]; intros out w; cbv zeta.
  - exists []. cbn. rewrite app_nil_r. unfold measures.
    repeat split; try reflexivity; cbn; lia.
  - cbn [attempts_loop]. unfold mbind, M_bind.
    destruct (attempt_shape self a out w) as (evs1 & Ht1 & Hm1 & Hf1).
    pose proof (attempt_fallthrough_no_raise self a out w) as Hnr1.
    cbv zeta in Hnr1.
    destruct (attempt DEBUG network self a out w) as [f1 w1].
    cbn [fst snd] in *.
    pose proof (sleep_bound_sum_nonneg as_) as Hnn.
    pose proof (attempt_sleep_bound_nonneg a) as Hna.
    destruct f1 as [out1|r1].
    + destruct (IH out1 w1) as (evs2 & Ht2 & Hm2 & Hf2 & Hnr2).
      destruct (Hnr1 out1 eq_refl) as (evs1' & Ht1' & Hr1).
      assert (evs1' = evs1) by (rewrite Ht1 in Ht1'; now apply app_inv_head in Ht1').
      subst evs1'.
      exists (evs1 ++ evs2). rewrite Ht2, Ht1, <- app_assoc.
      split; [reflexivity|]. split; [|split].
      * apply (measures_weaken _ (1 + length as_) (3 + 3 * length as_)
                 (attempt_sleep_bound a + sleep_bound_sum as_));
          [now apply measures_app | cbn [length]; lia | cbn [length]; lia |].
        change (sleep_bound_sum (a :: as_))
          with (attempt_sleep_bound a + sleep_bound_sum as_). lia.
      * apply flow_facts_prepend; [exact Hf1 | exact Hf2].
      * intros out' Hout. rewrite existsb_app, Hr1. cbn. now apply (Hnr2 out').
    + exists evs1. split; [exact Ht1|]. split; [|split].
      * apply (measures_weaken _ _ _ _ _ _ _ Hm1); cbn [length]; try lia.
        change (sleep_bound_sum (a :: as_))
          with (attempt_sleep_bound a + sleep_bound_sum as_). lia.
      * exact Hf1.
      * intros out' Hout. discriminate Hout.
Qed.

(** The whole of [connect]. *)
Lemma connect_shape (self : Wireless) (d : D) :
  let r := connect DEBUG network self (start d) in
  let n := length (range_down (_attempts self) 0) in
  forallb connect_event (trace r.2) = true ∧
  (count is_power_change (trace r.2) ≤ 1)%nat ∧
  (count is_connect_request (trace r.2) ≤ n)%nat ∧
  (count is_poll (trace r.2) ≤ 1 + 3 * n)%nat ∧
  0 ≤ sleep_total (trace r.2)
    ≤ 1 + sleep_bound_sum (range_down (_attempts self) 0) ∧
  (DEBUG = false → count is_print (trace r.2) = 0%nat) ∧
  connect_facts self (trace r.2) r.1.
Proof.
  cbv zeta.
  destruct (connect DEBUG network self (start d)) as [o w'] eqn:Er.
  cbn [fst snd]. revert Er.
  unfold connect. unfold_calls.
  pose proof (sleep_bound_sum_nonneg (range_down (_attempts self) 0)) as Hnn.
  name_call (wlan_isconnected d) c d1 E1. destruct c.
  - name_call (wlan_ifconfig d1) cfg d2 E2. intros [= <- <-].
    cbn [trace]. unfold count. cbn.
    repeat split; try lia.
    left. exists [], cfg, []. repeat split. now left.
  - match goal with
    | |- context [attempts_loop _ _ _ ?l ?o ?w0] =>
        destruct (attempts_loop_shape self l o w0)
          as (evs & Ht & (A & B & C & E & F & G) & Hf & Hnr);
        destruct (attempts_loop DEBUG network self l o w0) as [f w2]
    end.
    cbn [fst snd trace] in *.
    set (pre0 := [EvIsConnected false; EvSetActive true; EvSleep 1]).
    assert (Ht' : trace w2 = pre0 ++ evs)
      by (rewrite Ht, <- !app_assoc; reflexivity).
    assert (Hp0 : existsb is_connected_poll pre0 = false) by reflexivity.
    assert (Hr0 : existsb is_raising_request pre0 = false) by reflexivity.
    assert (Hmeasures :
      forallb connect_event (pre0 ++ evs) = true ∧
      (count is_power_change (pre0 ++ evs) ≤ 1)%nat ∧
      (count is_connect_request (pre0 ++ evs)
       ≤ length (range_down (_attempts self) 0))%nat ∧
      (count is_poll (pre0 ++ evs)
       ≤ 1 + 3 * length (range_down (_attempts self) 0))%nat ∧
      0 ≤ sleep_total (pre0 ++ evs)
        ≤ 1 + sleep_bound_sum (range_down (_attempts self) 0) ∧
      (DEBUG = false → count is_print (pre0 ++ evs) = 0%nat)).
    { rewrite forallb_app, !count_app, sleep_total_app, A, B.
      split; [reflexivity|]. split; [cbn; lia|].
      split; [cbn; lia|]. split; [cbn; lia|]. split; [cbn; lia|].
      intros Hd. rewrite (G Hd). reflexivity. }
    clear A B C E F G Ht.
    destruct Hmeasures as (A & B & C & E & F & G).
    assert (Hfacts : connect_facts self (pre0 ++ evs)
              match f with
              | Exit r => r
              | Fallthrough _output =>
                  Returned (_output ++ ["WLAN connection failed"])
              end).
    { destruct f as [out'|[log|e]]; cbn [connect_facts flow_facts] in *.
      - right. right. exists out'. split; [reflexivity|].
        rewrite !existsb_app, Hp0, Hr0, Hf, (Hnr out' eq_refl).
        split; reflexivity.
      - destruct Hf as [(pre & cfg & log' & -> & -> & Hp)|
                        (pre & a0 & rest & log' & -> & -> & Hp)].
        + left. exists (pre0 ++ pre), cfg, log'. rewrite <- app_assoc.
          split; [reflexivity|]. split; [now right|].
          now rewrite existsb_app, Hp0, Hp.
        + right. left. exists (pre0 ++ pre), a0, rest, log'.
          rewrite <- app_assoc. split; [reflexivity|].
          split; [reflexivity|]. now rewrite existsb_app, Hp0, Hp.
      - destruct Hf as (pre & e' & -> & He & Hp).
        exists (pre0 ++ pre), e'. rewrite <- app_assoc.
        split; [reflexivity|]. split; [exact He|].
        now rewrite existsb_app, Hp0, Hp. }
    destruct f as [out'|r']; intros [= <- <-]; cbn [trace]; rewrite Ht';
      auto 10.
Qed.

End Shape.

Lemma length_range_down (n : Z) : length (range_down n 0) = Z.to_nat n.
Proof.
  unfold range_down. rewrite List.length_map, List.length_seq. f_equal. lia.
Qed.

Lemma range_down_In (n a : Z) : In a (range_down n 0) → 1 ≤ a ≤ n.
Proof.
  unfold range_down. intros Hin.
  apply in_map_iff in Hin as (i & <- & Hi). apply in_seq in Hi. lia.
Qed.

Lemma sleep_bound_sum_range_down (n : Z) :
  1 ≤ n ≤ 9 → sleep_bound_sum (range_down n 0) = 23 * n - 15.
Proof.
  intros Hn.
  assert (Hc : n = 1 ∨ n = 2 ∨ n = 3 ∨ n = 4 ∨ n = 5 ∨ n = 6 ∨ n = 7 ∨
               n = 8 ∨ n = 9) by lia.
  repeat (destruct Hc as [->|Hc]; [reflexivity|]). subst. reflexivity.
Qed.

(** X10. [connect] keeps to a few calls, whatever the radio does: it never
    powers the radio down, never asks for its power state, never scans
    and never disconnects; it sets the power at most once (up); and with
    [DEBUG] off it prints nothing. *)
Theorem connect_keeps_to_its_calls {D} `{Platform D}
    (DEBUG : bool) (network : namespace) (self : Wireless) (d : D) :
  let r := connect DEBUG network self (start d) in
  forallb connect_event (trace r.2) = true ∧
  count (λ e, match e with EvSetActive false => true | _ => false end)
        (trace r.2) = 0%nat ∧
  (count is_power_change (trace r.2) ≤ 1)%nat ∧
  count is_print (trace (connect false network self (start d)).2) = 0%nat.
Proof.
  cbv zeta.
  destruct (connect_shape DEBUG network self d) as (A & B & _).
  destruct (connect_shape false network self d) as (_ & _ & _ & _ & _ & G & _).
  split; [exact A|]. split; [|split; [exact B | exact (G eq_refl)]].
  revert A. generalize (trace (connect DEBUG network self (start d)).2).
  intros tr. unfold count. induction tr as [|e tr IH]; [reflexivity|].
  cbn [forallb List.filter]. intros Ha.
  apply andb_true_iff in Ha as [He Ha].
  destruct e as [| [|] | | | | | | | |]; try discriminate He; cbn; auto.
Qed.

(** X11. A call of [connect] with a valid number of attempts is bounded,
    whatever the radio does: it issues at most [attempts] connect
    requests, polls connectivity at most [1 + 3 * attempts] times, and
    sleeps at most [23 * attempts - 14] seconds in all (1 to wake the
    radio, then 1 + 7 in each attempt and 15 between two attempts). *)
Theorem connect_bounded {D} `{Platform D}
    (DEBUG : bool) (network : namespace) (self : Wireless) (d : D) :
  1 ≤ _attempts self ≤ 9 →
  let r := connect DEBUG network self (start d) in
  (Z.of_nat (count is_connect_request (trace r.2)) ≤ _attempts self) ∧
  (Z.of_nat (count is_poll (trace r.2)) ≤ 1 + 3 * _attempts self) ∧
  0 ≤ sleep_total (trace r.2) ≤ 23 * _attempts self - 14.
Proof.
  intros Ha. cbv zeta.
  destruct (connect_shape DEBUG network self d) as (_ & _ & C & E & F & _).
  rewrite length_range_down in C, E.
  rewrite sleep_bound_sum_range_down in F by exact Ha.
  repeat split; lia.
Qed.

(** With 5 attempts on the scripted radio that never associates the
    bound on the sleep is met: 101 seconds. *)
Lemma connect_bounded_witness :
  let r := connect false esp8266_network (example_config 5 5)
             (start stub_never) in
  sleep_total (trace r.2) ≤ 23 * 5 - 14 ∧ sleep_total (trace r.2) = 101.
Proof.
  assert (Ha : 1 ≤ _attempts (example_config 5 5) ≤ 9) by (simpl; lia).
  destruct (connect_bounded false esp8266_network (example_config 5 5)
              stub_never Ha) as (_ & _ & _ & Hs).
  split; [exact Hs | reflexivity].
Defined.



(** X13. As soon as a poll finds the radio connected, [connect] asks for the
    address and returns: that poll and the address query are the last
    two events, no earlier poll found the radio connected, and the last
    entry of the log returned is the address (after a space when it was
    found during an attempt). *)
Theorem connect_returns_on_connected_poll {D} `{Platform D}
    (DEBUG : bool) (network : namespace) (self : Wireless) (d : D) :
  let r := connect DEBUG network self (start d) in
  existsb is_connected_poll (trace r.2) = true →
  ∃ pre cfg log',
    trace r.2 = pre ++ [EvIsConnected true; EvIfconfig cfg] ∧
    existsb is_connected_poll pre = false ∧
    (r.1 = Returned (log' ++ [ip_of cfg]) ∨
     r.1 = Returned (log' ++ [" " +:+ ip_of cfg])).
Proof.
  cbv zeta. intros Hc.
  destruct (connect_shape DEBUG network self d) as (_ & _ & _ & _ & _ & _ & Hf).
  destruct (connect DEBUG network self (start d)) as [[log|e] w'];
    cbn [fst snd connect_facts] in *.
  - destruct Hf as [(pre & cfg & log' & Ht & Hl & Hp)|
                    [(pre & a0 & rest & log' & Ht & Hl & Hp)|
                     (log' & Hl & Hp & _)]]; try congruence.
    exists pre, cfg, log'. split; [exact Ht|]. split; [exact Hp|].
    destruct Hl as [->| ->]; auto.
  - destruct Hf as (pre & e' & Ht & He & Hp). congruence.
Qed.

(** A radio found connected at the third poll of the first attempt. *)
Lemma connect_returns_on_connected_poll_witness :
  let d := mkStub true [false; false; false; true] cfg_10_0_0_5 5 None [] in
  let r := connect false esp8266_network (example_config 5 5) (start d) in
  ∃ pre cfg log',
    trace r.2 = pre ++ [EvIsConnected true; EvIfconfig cfg] ∧
    existsb is_connected_poll pre = false ∧
    (r.1 = Returned (log' ++ [ip_of cfg]) ∨
     r.1 = Returned (log' ++ [" " +:+ ip_of cfg])).
Proof.
  intros d.
  apply (connect_returns_on_connected_poll false esp8266_network
           (example_config 5 5) d).
  reflexivity.
Defined.



(** ** Exhaustion, for any number of attempts *)

Lemma wait_entry_not_countdown (l : Z) :
  is_countdown_entry (" Wait " +:+ format_int l) = false.
Proof. reflexivity. Qed.

Lemma wait_entries_values (self : Wireless) :
  wait_entries (wait_values self)
  = if 1 <? _wait_loops self
    then [" Wait " +:+ format_int (_wait_loops self)] else [].
Proof.
  unfold wait_entries, wait_values. cbn [List.filter].
  change (1 <? 0) with false. change (1 <? -1) with false.
  now destruct (1 <? _wait_loops self).
Qed.

(** The countdown entries of the attempts made, and how many entries
    they logged. *)
Lemma attempts_entries_countdown (network : namespace) (self : Wireless) as_ :
  ∀ codes,
    (∀ a, In a as_ → 1 ≤ a ≤ 9) → length codes = length as_ →
    let log := concat (List.map (attempt_entries network self)
                         (combine as_ codes)) in
    (identifiers network →
       List.filter is_countdown_entry log
       = List.map (λ a, "WLAN " +:+ format_int a) as_) ∧
    length log
    = (length as_ * (if (1 <? _wait_loops self)%Z then 3 else 2))%nat.
Proof.
  induction as_ as [|a as_ IH]; intros codes Hin Hlen; cbv zeta.
  - split; reflexivity.
  - destruct codes as [|c codes]; [discriminate Hlen|].
    cbn [combine List.map concat].
    destruct (IH codes) as [Hf Hl].
    { intros a' Ha'. apply Hin. now right. }
    { now injection Hlen. }
    unfold attempt_entries at 1 3. cbn [fst snd].
    rewrite wait_entries_values. split.
    + intros Hid. rewrite !List.filter_app, (Hf Hid).
      cbn [List.filter]. rewrite countdown_entry_digit by (apply Hin; now left).
      rewrite status_message_not_countdown by exact Hid.
      destruct (1 <? _wait_loops self); reflexivity.
    + rewrite !length_app, Hl. destruct (1 <? _wait_loops self); cbn; lia.
Qed.

Section Exhaustion.
Context {D : Type} `{Platform D}.
Variable DEBUG : bool.
Variable network : namespace.

(** The states of a radio that never reports connected and takes every
    connect request. *)
Variable Inv : D → Prop.
Hypothesis never_connected :
  ∀ d, Inv d → (wlan_isconnected d).1 = false ∧ Inv (wlan_isconnected d).2.
Hypothesis never_faults :
  ∀ s p d, Inv d → (wlan_connect s p d).1 = None ∧ Inv (wlan_connect s p d).2.
Hypothesis Inv_set_active : ∀ b d, Inv d → Inv (wlan_set_active b d).
Hypothesis Inv_sleep : ∀ n d, Inv d → Inv (time_sleep n d).
Hypothesis Inv_status : ∀ d, Inv d → Inv (wlan_status d).2.

(** X15. On a radio that never reports connected and never faults, [connect]
    with [attempts] in 1..9 makes every attempt: it polls
    [1 + 3 * attempts] times; its log has, for each attempt, the countdown
    entry, one wait entry when [wait_loops >= 2], and a status, and ends
    with ["WLAN connection failed"]; the countdown entries are
    ["WLAN <attempts>"] down to ["WLAN 1"]; and the radio does not report
    connected afterwards. *)
Theorem connect_exhausts_every_attempt (self : Wireless) (d : D) :
  Inv d →
  1 ≤ _attempts self ≤ 9 →
  let r := connect DEBUG network self (start d) in
  let n := _attempts self in
  (∃ codes, length codes = Z.to_nat n ∧
     r.1 = Returned
             (concat (List.map (attempt_entries network self)
                        (combine (range_down n 0) codes))
              ++ ["WLAN connection failed"])) ∧
  Z.of_nat (length (log_of r.1))
  = n * (if 1 <? _wait_loops self then 3 else 2) + 1 ∧
  List.last (log_of r.1) "" = "WLAN connection failed" ∧
  Z.of_nat (count is_poll (trace r.2)) = 1 + 3 * n ∧
  (identifiers network →
     List.filter is_countdown_entry (log_of r.1)
     = List.map (λ a, "WLAN " +:+ format_int a) (range_down n 0)) ∧
  (wlan_isconnected (radio r.2)).1 = false.
Proof.
  intros Hd Ha. cbv zeta.
  destruct (connect_never DEBUG network Inv never_connected never_faults
              Inv_set_active Inv_sleep Inv_status self d Hd)
    as (codes & Hlen & Hr & Hi & Hp).
  rewrite length_range_down in Hlen, Hp.
  destruct (attempts_entries_countdown network self
              (range_down (_attempts self) 0) codes) as [Hf Hl].
  { intros a Hin. apply range_down_In in Hin. lia. }
  { now rewrite length_range_down. }
  rewrite length_range_down in Hl.
  rewrite Hr. cbn [log_of].
  split; [exists codes; auto|].
  split; [rewrite length_app, Hl; cbn;
          destruct (1 <? _wait_loops self); lia|].
  split; [apply last_last|].
  split; [lia|].
  split; [|now apply never_connected].
  intros Hid. rewrite List.filter_app, (Hf Hid). cbn. apply app_nil_r.
Qed.

End Exhaustion.

(** Nine attempts on the scripted radio that never associates: 28 polls,
    28 entries. *)
Lemma connect_exhausts_every_attempt_witness :
  let r := connect false esp8266_network (example_config 9 5)
             (start stub_never) in
  Z.of_nat (count is_poll (trace r.2)) = 1 + 3 * 9 ∧
  Z.of_nat (length (log_of r.1)) = 9 * 3 + 1 ∧
  List.filter is_countdown_entry (log_of r.1)
  = ["WLAN 9"; "WLAN 8"; "WLAN 7"; "WLAN 6"; "WLAN 5"; "WLAN 4"; "WLAN 3";
     "WLAN 2"; "WLAN 1"].
Proof.
  pose (Inv := λ d : Stub, stub_link d = [] ∧ stub_reject d = None).
  assert (H1 : ∀ d, Inv d →
            (wlan_isconnected d).1 = false ∧ Inv (wlan_isconnected d).2).
  { intros [p l c s r a] [Hl Hr]; simpl in Hl, Hr; subst;
    split; [reflexivity | split; reflexivity]. }
  assert (H2 : ∀ s p d, Inv d →
            (wlan_connect s p d).1 = None ∧ Inv (wlan_connect s p d).2).
  { intros s p [pw l c st r a] [Hl Hr]; simpl in Hl, Hr; subst;
    split; [reflexivity | split; reflexivity]. }
  assert (H3 : ∀ b d, Inv d → Inv (wlan_set_active b d)).
  { intros b [pw l c st r a] [Hl Hr]; simpl in Hl, Hr; subst;
    split; reflexivity. }
  assert (H4 : ∀ n d, Inv d → Inv (time_sleep n d)).
  { intros n d Hd. exact Hd. }
  assert (H5 : ∀ d, Inv d → Inv (wlan_status d).2).
  { intros d Hd. exact Hd. }
  assert (Hid : identifiers esp8266_network).
  { intros s v Hin. simpl in Hin.
    repeat (destruct Hin as [[= <- <-]|Hin]; [reflexivity|]).
    destruct Hin. }
  assert (Ha : 1 ≤ _attempts (example_config 9 5) ≤ 9) by (simpl; lia).
  destruct (connect_exhausts_every_attempt false esp8266_network Inv
              H1 H2 H3 H4 H5 (example_config 9 5) stub_never
              (conj eq_refl eq_refl) Ha)
    as (_ & Hlen & _ & Hp & Hc & _).
  split; [exact Hp|]. split; [exact Hlen | exact (Hc Hid)].
Defined.
